(** * golem.ethereum.node: the Ethereum node supervisor

    A shallow embedding of [golem/ethereum/node.py]: the discovery of
    public geth RPC endpoints ([get_public_nodes]), the version gate on
    the local geth binary ([NodeProcess._find_geth]), the construction
    of the local IPC path ([NodeProcess._create_local_ipc_provider]),
    the connect / time-out / retry routine ([NodeProcess.start] with
    [NodeProcess._start_timed_out]), the chain identification
    ([NodeProcess.identify_chain]) and the teardown ([NodeProcess.stop]).

    Python objects are modelled by records and inductive types, the
    instance attributes of [NodeProcess] by a record that is threaded
    through every method, raised exceptions by an outcome of their own
    next to the returned value, and whatever the outside world answers
    (the RPC endpoint, the file system, the operating system) by an
    explicit environment.  Calls of the logger change nothing the
    supervisor reads back and are left out. *)

From Stdlib Require Import ZArith Lia Bool Ascii String.
From stdpp Require Import base option list strings pretty gmap.

Open Scope string_scope.
Open Scope list_scope.

(** ** Bytes, code points and numerals *)

(** The bytes of a byte string, as numbers below 256. *)
Definition bytes_of (output : string) : list N :=
  Ascii.N_of_ascii <$> list_ascii_of_string output.

(** The code points of a text written in ASCII. *)
Definition codes (s : string) : list N :=
  Ascii.N_of_ascii <$> list_ascii_of_string s.

Definition in_range (lo hi b : N) : bool := (lo <=? b)%N && (b <=? hi)%N.

(** A continuation byte [10xxxxxx]. *)
Definition is_continuation (b : N) : bool := in_range 128 191 b.

(** [str(output, 'utf-8')]: the code points of a well-formed UTF-8 byte
    sequence, [None] standing for [UnicodeDecodeError]. As the strict
    decoder of Python does, it refuses stray and missing continuation
    bytes, overlong forms, surrogates and everything above U+10FFFF. *)
Fixpoint utf8_decode (bs : list N) : option (list N) :=
  match bs with
  | [] => Some []
  | b0 :: bs1 =>
      if (b0 <? 128)%N then cons b0 <$> utf8_decode bs1
      else if in_range 194 223 b0 then
        match bs1 with
        | b1 :: bs2 =>
            if is_continuation b1
            then cons ((b0 - 192) * 64 + (b1 - 128))%N <$> utf8_decode bs2
            else None
        | _ => None
        end
      else if in_range 224 239 b0 then
        match bs1 with
        | b1 :: b2 :: bs3 =>
            if (if (b0 =? 224)%N then in_range 160 191 b1
                else if (b0 =? 237)%N then in_range 128 159 b1
                else is_continuation b1)
               && is_continuation b2
            then cons ((b0 - 224) * 4096 + (b1 - 128) * 64 + (b2 - 128))%N
                   <$> utf8_decode bs3
            else None
        | _ => None
        end
      else if in_range 240 244 b0 then
        match bs1 with
        | b1 :: b2 :: b3 :: bs4 =>
            if (if (b0 =? 240)%N then in_range 144 191 b1
                else if (b0 =? 244)%N then in_range 128 143 b1
                else is_continuation b1)
               && is_continuation b2 && is_continuation b3
            then cons ((b0 - 240) * 262144 + (b1 - 128) * 4096
                       + (b2 - 128) * 64 + (b3 - 128))%N
                   <$> utf8_decode bs4
            else None
        | _ => None
        end
      else None
  end.

(** The digits [0] to [9]: what [\d] matches under [re.ASCII]. *)
Definition ascii_digit (c : N) : bool := in_range 48 57 c.

Definition digit_value (c : N) : N := (c - 48)%N.

(** [int(s)] for a string of the digits [0] to [9]. *)
Definition int_of_digits (ds : list N) : N :=
  fold_left (fun acc c => (10 * acc + digit_value c)%N) ds 0%N.

(** The longest prefix of digits, and what follows it: a greedy [\d*].
    On a [str], [\d] matches every decimal digit of Unicode (category
    Nd); [is_digit] is that predicate on code points. *)
Fixpoint span_digits (is_digit : N -> bool) (s : list N) : list N * list N :=
  match s with
  | c :: s' =>
      if is_digit c
      then let '(ds, rest) := span_digits is_digit s' in (c :: ds, rest)
      else ([], s)
  | [] => ([], [])
  end.

(** [\d+]: at least one digit, greedily. *)
Definition digits1 (is_digit : N -> bool) (s : list N)
  : option (list N * list N) :=
  match span_digits is_digit s with
  | ([], _) => None
  | (ds, rest) => Some (ds, rest)
  end.

Fixpoint strip_prefix (p s : list N) : option (list N) :=
  match p, s with
  | [], _ => Some s
  | a :: p', b :: s' => if (a =? b)%N then strip_prefix p' s' else None
  | _ :: _, [] => None
  end.

(** ** distutils.version.StrictVersion *)

Module Version.

(** A strict version number without pre-release tag: the tuple
    [version] of [StrictVersion].  The pattern of [_find_geth] only
    ever extracts [major.minor.patch], so [prerelease] is [None] for
    every version this module builds. *)
Record StrictVersion := mkVersion { major : N; minor : N; patch : N }.

(** Comparison of the [version] tuples, as Python compares tuples:
    the first differing component decides. *)
Definition _cmp (a b : StrictVersion) : comparison :=
  match (major a ?= major b)%N with
  | Eq => match (minor a ?= minor b)%N with
          | Eq => (patch a ?= patch b)%N
          | c => c
          end
  | c => c
  end.

Definition ltb (a b : StrictVersion) : bool :=
  match _cmp a b with Lt => true | _ => false end.
Definition gtb (a b : StrictVersion) : bool :=
  match _cmp a b with Gt => true | _ => false end.

(** [\d+\.\d+\.\d+] anchored at the head of [s]: the three numerals. *)
Definition match_triple (is_digit : N -> bool) (s : list N)
  : option (list N * list N * list N) :=
  match digits1 is_digit s with
  | Some (a, 46%N :: s1) =>
      match digits1 is_digit s1 with
      | Some (b, 46%N :: s2) =>
          match digits1 is_digit s2 with
          | Some (c, _) => Some (a, b, c)
          | None => None
          end
      | _ => None
      end
  | _ => None
  end.

(** [re.search("Version: (\d+\.\d+\.\d+)", s)]: the leftmost position
    at which the pattern matches; [None] when there is none. *)
Fixpoint re_search (is_digit : N -> bool) (s : list N)
  : option (list N * list N * list N) :=
  let here :=
    match strip_prefix (codes "Version: ") s with
    | Some rest => match_triple is_digit rest
    | None => None
    end in
  match here with
  | Some m => Some m
  | None => match s with
            | _ :: s' => re_search is_digit s'
            | [] => None
            end
  end.

(** [StrictVersion(match)] on the text of group 1. The pattern of
    [StrictVersion] is compiled with [re.ASCII]: it takes the digits [0]
    to [9] only, and any other decimal digit of Unicode in the text
    makes the constructor raise [ValueError] ([None]). *)
Definition parse (m : list N * list N * list N) : option StrictVersion :=
  let '(a, b, c) := m in
  if forallb ascii_digit a && forallb ascii_digit b && forallb ascii_digit c
  then Some (mkVersion (int_of_digits a) (int_of_digits b) (int_of_digits c))
  else None.

End Version.

Import Version.

Definition MIN_GETH_VERSION : StrictVersion := mkVersion 1 7 2.
Definition MAX_GETH_VERSION : StrictVersion := mkVersion 1 7 999.

(** Line 282 of [_find_geth]: the version passes the gate unless
    [ver < MIN_GETH_VERSION or ver > MAX_GETH_VERSION]. *)
Definition version_rejected (ver : StrictVersion) : bool :=
  Version.ltb ver MIN_GETH_VERSION || Version.gtb ver MAX_GETH_VERSION.

(** ** Endpoint discovery: [get_public_nodes] *)

Definition FALLBACK_NODE_LIST : list string :=
  [ "http://188.165.227.180:55555";
    "http://94.23.17.170:55555";
    "http://94.23.57.58:55555" ].

(** What [response.json()] can hand back. *)
Unset Elimination Schemes.
Inductive json :=
| JNull
| JBool (b : bool)
| JNumber (z : Z)
| JString (s : string)
| JArray (items : list json)
| JObject (fields : list (string * json)).
Set Elimination Schemes.

(** The two steps of [requests.get(NODE_LIST_URL).json()].  [requests.get]
    either raises (no route, refused, TLS failure, ...) or returns a
    response, whatever its status code; [.json()] on the response raises
    when the body is not JSON ([body = None]) and returns the decoded
    value otherwise. *)
Inductive fetched :=
| RequestRaised
| Response (status_code : Z) (body : option json).

(** The source of randomness behind [random.shuffle]: the raw draws, in
    the order they are consumed.  [randbelow n] is uniform on [0, n). *)
Definition randbelow (n : nat) (rng : list nat) : nat * list nat :=
  match rng with
  | r :: rng' => (r mod n, rng')
  | [] => (0, [])
  end.

(** [x[i], x[j] = x[j], x[i]]. Both indices are in range wherever
    [shuffle] swaps; out of range Python would raise. *)
Definition swap {A} (x : list A) (i j : nat) : list A :=
  match x !! i, x !! j with
  | Some xi, Some xj => <[j:=xi]> (<[i:=xj]> x)
  | _, _ => x
  end.

(** [for i in reversed(range(1, len(x))): j = randbelow(i + 1); swap]:
    the loop of [random.shuffle], [i] counting down to 1. *)
Fixpoint shuffle_from {A} (i : nat) (rng : list nat) (x : list A) : list A :=
  match i with
  | 0 => x
  | S i' =>
      let '(j, rng') := randbelow (S i) rng in
      shuffle_from i' rng' (swap x i j)
  end.

Definition shuffle {A} (rng : list nat) (x : list A) : list A :=
  shuffle_from (length x - 1) rng x.

Definition get_public_nodes (directory : fetched) (rng : list nat) : json :=
  match directory with
  | Response _ (Some nodes) => nodes         (* try: return ....json() *)
  | _ =>                                     (* except Exception: log.error *)
      let addr_list := shuffle rng FALLBACK_NODE_LIST in
      JArray (JString <$> addr_list)
  end.

(** A Python sequence with at least one element. *)
Definition nonempty_sequence (v : json) : Prop :=
  match v with
  | JArray (_ :: _) => True
  | _ => False
  end.

(** ** The supervisor's data *)

Inductive Provider :=
| IPCProvider (ipc_path : string)
| HTTPProvider (endpoint_uri : string).

(** The genesis block as far as the supervisor reads it:
    [genesis_block['hash']]. *)
Record Block := mkBlock { block_hash : string }.

(** A child process started by [subprocess.Popen]. *)
Record Popen := mkPopen { pid : nat; args : list string }.

(** What the operating system may answer to [terminate()] / [wait()]. *)
Inductive os_error := ProcessLookupError | PermissionError.

Inductive exn :=
| RuntimeError_already_started              (* "Ethereum node already started by us" *)
| OSError_wrong_chain (identified_chain : string)   (* "Wrong '{}' Ethereum chain" *)
| OSError_cannot_connect (provider : Provider)      (* "Cannot connect to geth: {}" *)
| OSError_geth_not_found                    (* "Ethereum client 'geth' not found" *)
| OSError_incompatible_version (ver : StrictVersion)
| OSError_popen                             (* the binary could not be executed *)
| OSError_os (e : os_error)
| AttributeError_group                      (* re.search(...) is None *)
| UnicodeDecodeError_output                 (* str(output, 'utf-8') *)
| ValueError_version                        (* StrictVersion(match) *)
| AttributeError_module (module attr : string)  (* module has no such attribute *)
| IndexError_pop.                           (* pop from empty list *)

(** The instance attributes of [NodeProcess]. *)
Record NodeProcess := mkNode {
  datadir : string;
  start_node : bool;
  web3 : option Provider;
  addr_list : list string;
  __prog : option string;
  __ps : option Popen
}.

(** The part of the process state outside the object that [start] and
    [stop] act on: a clock in milliseconds and the number of hooks given
    to [atexit.register]. The clock is the supervisor's own: it is read
    by [time.time()] and advanced by [time.sleep] alone. The time that a
    liveness check, a block request, [geth version] or [Popen] takes on
    the wall clock is not counted, so a lower bound on this clock is a
    lower bound on the wall clock, and an upper bound is a bound on the
    time spent sleeping. *)
Record World := mkWorld { now : Z; atexit_hooks : nat }.

Definition State : Type := NodeProcess * World.

(** Everything the outside world answers. [golem.core.common.is_windows],
    [golem.environments.utils.find_program] and
    [golem.utils.find_free_net_port] are not part of this file and are
    taken as given, as are the platform's [tempfile.gettempdir] and
    [ntpath.join]. *)
Record Env := mkEnv {
  isConnected : Provider -> Z -> bool;
    (* web3.isConnected() at a time; an AssertionError counts as False *)
  getBlock : Provider -> Z -> option Block;
    (* web3.eth.getBlock(0); None when it raises or returns nothing *)
  find_program : string -> option string;
  version_output : string -> string;   (* output of [<geth> version] *)
  is_windows : bool;
  gettempdir : string;
  ntpath_join : string -> string -> string;
  find_free_net_port : Z;
  spawn : list string -> option nat;   (* Popen(args): the pid, or OSError *)
  terminate_wait : Popen -> option os_error;
    (* __ps.terminate(); __ps.wait(): None when neither raises *)
  unicode_digit : N -> bool
    (* the decimal digits (category Nd) of the interpreter's Unicode
       database, which the pattern [\d] matches on a [str] *)
}.

Definition set_start_node (v : bool) (n : NodeProcess) : NodeProcess :=
  mkNode (datadir n) v (web3 n) (addr_list n) (__prog n) (__ps n).
Definition set_web3 (v : option Provider) (n : NodeProcess) : NodeProcess :=
  mkNode (datadir n) (start_node n) v (addr_list n) (__prog n) (__ps n).
Definition set_addr_list (v : list string) (n : NodeProcess) : NodeProcess :=
  mkNode (datadir n) (start_node n) (web3 n) v (__prog n) (__ps n).
Definition set_prog (v : option string) (n : NodeProcess) : NodeProcess :=
  mkNode (datadir n) (start_node n) (web3 n) (addr_list n) v (__ps n).
Definition set_ps (v : option Popen) (n : NodeProcess) : NodeProcess :=
  mkNode (datadir n) (start_node n) (web3 n) (addr_list n) (__prog n) v.
Definition set_now (t : Z) (w : World) : World := mkWorld t (atexit_hooks w).
Definition atexit_register (w : World) : World :=
  mkWorld (now w) (S (atexit_hooks w)).

(** ** Raising, returning and threading the state *)

(** The end of a call: it returns, it raises, or the model's recursion
    budget ran out before either ([OutOfFuel], which the totality lemmas
    below exclude). *)
Inductive outcome (A : Type) :=
| Returned (a : A)
| Raised (e : exn)
| OutOfFuel.
Arguments Returned {A} a.
Arguments Raised {A} e.
Arguments OutOfFuel {A}.

Definition M (A : Type) : Type := State -> outcome A * State.

#[export] Instance M_ret : MRet M := fun A a st => (Returned a, st).
#[export] Instance M_bind : MBind M := fun A B f m st =>
  match m st with
  | (Returned a, st') => f a st'
  | (Raised e, st') => (Raised e, st')
  | (OutOfFuel, st') => (OutOfFuel, st')
  end.

Definition raise {A} (e : exn) : M A := fun st => (Raised e, st).
Definition out_of_fuel {A} : M A := fun st => (OutOfFuel, st).
Definition get_self : M NodeProcess := fun st => (Returned (fst st), st).
Definition modify_self (f : NodeProcess -> NodeProcess) : M unit :=
  fun st => (Returned tt, (f (fst st), snd st)).
Definition modify_world (f : World -> World) : M unit :=
  fun st => (Returned tt, (fst st, f (snd st))).
Definition time : M Z := fun st => (Returned (now (snd st)), st).

(** ** Class constants and pure helpers *)

Definition CONNECTION_TIMEOUT : Z := 10.
Definition CHAIN : string := "rinkeby".

(** One second of [time.time()] is 1000 units of the model's clock. *)
Definition seconds (s : Z) : Z := 1000 * s.

(** The table inside [identify_chain]. *)
Definition GENESES : gmap string string :=
  <["0xd4e56740f876aef8c010b86a40d5f56745a118d0906a34e69aec8c0db1cb8fa3" := "mainnet"]>
  (<["0x41941023680923e0fe4d74a34bdac8141f2540e3ae90623718e47d66d1ca4a2d" := "ropsten"]>
  (<["0x6341fd3daf94b748c72ced5a5b26028f2474f5f00d824504e4fa37a75767e177" := "rinkeby"]>
   ∅)).

(** [GENESES.get(genesis, 'unknown')] on [genesis_block['hash']]. *)
Definition identify_chain (genesis_block : Block) : string :=
  let genesis := block_hash genesis_block in
  default "unknown" (GENESES !! genesis).

Definition is_running (self : NodeProcess) : bool :=
  match __ps self with Some _ => true | None => false end.

(** [not l] for a Python list. *)
Definition is_empty {A} (l : list A) : bool :=
  match l with [] => true | _ :: _ => false end.

(** [l.pop()]: the last element and the list without it. *)
Definition pop {A} (l : list A) : option (A * list A) :=
  match last l with
  | Some a => Some (a, removelast l)
  | None => None
  end.

(** [str.format] of a bool. *)
Definition format_bool (b : bool) : string := if b then "True" else "False".

(** [posixpath.join(a, b)]. *)
Definition posixpath_join (a b : string) : string :=
  if String.prefix "/" b then b
  else if String.eqb a "" then a +:+ b
  else match last (list_ascii_of_string a) with
       | Some "/"%char => a +:+ b
       | _ => a +:+ "/" +:+ b
       end.

(** [__init__]: [addr_list = [addr] if addr else get_public_nodes()],
    with [public_nodes] the list that [get_public_nodes()] yields. *)
Definition __init__ (datadir : string) (addr : option string)
    (start_node : bool) (public_nodes : list string) : NodeProcess :=
  let addr_list :=
    match addr with
    | Some a => if String.eqb a "" then public_nodes else [a]
    | None => public_nodes
    end in
  mkNode datadir start_node None addr_list None None.

(** The public names of the standard [subprocess] module that are
    exception classes. There is no [NoSuchProcess] among them (that is
    [psutil]'s), so evaluating [subprocess.NoSuchProcess] raises
    [AttributeError]. *)
Definition subprocess_exceptions : list string :=
  [ "SubprocessError"; "CalledProcessError"; "TimeoutExpired" ].

Definition subprocess_has (name : string) : bool :=
  bool_decide (name ∈ subprocess_exceptions).

(** Whether an [OSError] of the operating system is an instance of one
    of [subprocess]'s exception classes: never, those all derive from
    [SubprocessError]. *)
Definition isinstance_subprocess (e : os_error) (cls : string) : bool := false.

(** ** The methods of [NodeProcess] *)

(** How a polling loop of [start] ends: with what it waited for, at a
    time; with the deadline behind it; or still polling when the model's
    budget of polls is used up ([Spinning]). *)
Inductive waited (A : Type) :=
| Ready (a : A) (t : Z)
| Elapsed (t : Z)
| Spinning.
Arguments Ready {A} a t.
Arguments Elapsed {A} t.
Arguments Spinning {A}.

(** Enough polls for a loop that sleeps [step] between two polls to get
    past [deadline] from time [t]. *)
Definition polls_until (deadline t step : Z) : nat :=
  S (S (Z.to_nat ((deadline - t) / step))).

Section Supervisor.

Context (env : Env).

(** [while not self.is_connected(): if time.time() > deadline: <timed
    out>; time.sleep(0.1)]. *)
Fixpoint wait_connected (polls : nat) (provider : Provider)
    (deadline t : Z) : waited unit :=
  match polls with
  | 0 => Spinning
  | S polls' =>
      if isConnected env provider t then Ready tt t
      else if (t >? deadline)%Z then Elapsed t
      else wait_connected polls' provider deadline (t + 100)
  end.

(** [genesis_block = self.get_genesis_block()] and then [while not
    genesis_block: if time.time() > deadline: <timed out>;
    time.sleep(0.5); genesis_block = self.get_genesis_block()]. *)
Fixpoint wait_genesis (polls : nat) (provider : Provider)
    (deadline t : Z) : waited Block :=
  match polls with
  | 0 => Spinning
  | S polls' =>
      match getBlock env provider t with
      | Some genesis_block => Ready genesis_block t
      | None =>
          if (t >? deadline)%Z then Elapsed t
          else wait_genesis polls' provider deadline (t + 500)
      end
  end.

(** Runs a polling loop from the current time and moves the clock to
    where the loop stopped; [None] is the deadline elapsing. Only the
    sleeps of the loop move this clock (see [World]): the calls to the
    endpoint are read at the time they are made and cost no time on it. *)
Definition polling {A} (loop : Z -> waited A) : M (option A) :=
  fun st =>
    match loop (now (snd st)) with
    | Ready a t => (Returned (Some a), (fst st, set_now t (snd st)))
    | Elapsed t => (Returned None, (fst st, set_now t (snd st)))
    | Spinning => (OutOfFuel, st)
    end.

Definition _find_geth : M unit :=
  match find_program env "geth" with
  | None => raise OSError_geth_not_found
  | Some geth =>
      let output := version_output env geth in
      match utf8_decode (bytes_of output) with
      | None => raise UnicodeDecodeError_output
      | Some text =>
          match Version.re_search (unicode_digit env) text with
          | None => raise AttributeError_group
          | Some m =>
              match Version.parse m with
              | None => raise ValueError_version
              | Some ver =>
                  if version_rejected ver
                  then raise (OSError_incompatible_version ver)
                  else modify_self (set_prog (Some geth))
              end
          end
      end
  end.

Definition os_path_join (a b : string) : string :=
  if is_windows env then ntpath_join env a b else posixpath_join a b.

(** The two tee threads that copy the child's output are started after
    [__ps] is set and do not touch the supervisor's attributes; they
    are left out. *)
Definition _create_local_ipc_provider (chain : string)
    (start_port : option Z) : M Provider :=
  _find_geth ;;
  self ← get_self;
  let geth_datadir :=
    os_path_join (os_path_join (datadir self) "ethereum") chain in
  let start_port :=
    match start_port with
    | None => find_free_net_port env
    | Some port => port
    end in
  let tempdir := gettempdir env in
  let ipc_file := chain +:+ "-" +:+ pretty start_port in
  let ipc_path := os_path_join tempdir ipc_file in
  let ipc_path :=
    if is_windows env
    then "\\.\pipe\" +:+ format_bool (start_node self)
    else ipc_path in
  let args :=
    [ default "None" (__prog self);
      "--datadir=" +:+ geth_datadir;
      "--cache=32";
      "--syncmode=light";
      "--rinkeby";
      "--port=" +:+ pretty start_port;
      "--ipcpath=" +:+ ipc_path;
      "--nousb";
      "--verbosity"; "3" ] in
  match spawn env args with
  | None => raise OSError_popen
  | Some child =>
      modify_self (set_ps (Some (mkPopen child args))) ;;
      mret (IPCProvider ipc_path)
  end.

Definition _create_remote_rpc_provider : M Provider :=
  self ← get_self;
  match pop (addr_list self) with
  | None => raise IndexError_pop
  | Some (addr, rest) =>
      modify_self (set_addr_list rest) ;;
      mret (HTTPProvider addr)
  end.

(** [_start_timed_out], with the method it calls back, [self.start],
    as a parameter. *)
Definition _start_timed_out (start : option Z -> M unit)
    (provider : Provider) (start_port : option Z) : M unit :=
  self ← get_self;
  if negb (start_node self) then
    modify_self (set_start_node (is_empty (addr_list self))) ;;
    start start_port
  else raise (OSError_cannot_connect provider).

(** [start]. [fuel] bounds the depth of the recursion through
    [_start_timed_out]. The [report_calls] decorator only reports the
    call and re-raises. *)
Fixpoint start (fuel : nat) (start_port : option Z) : M unit :=
  match fuel with
  | 0 => out_of_fuel
  | S fuel' =>
      self ← get_self;
      if is_running self then raise RuntimeError_already_started
      else
        provider ← (if start_node self
                    then _create_local_ipc_provider CHAIN start_port
                    else _create_remote_rpc_provider);
        modify_self (set_web3 (Some provider)) ;;
        modify_world atexit_register ;;
        started ← time;
        let deadline := (started + seconds CONNECTION_TIMEOUT)%Z in
        connected ← polling (fun t =>
          wait_connected (polls_until deadline t 100) provider deadline t);
        match connected with
        | None => _start_timed_out (start fuel') provider start_port
        | Some _ =>
            genesis_block ← polling (fun t =>
              wait_genesis (polls_until deadline t 500) provider deadline t);
            match genesis_block with
            | None => _start_timed_out (start fuel') provider start_port
            | Some genesis_block =>
                let identified_chain := identify_chain genesis_block in
                if negb (String.eqb identified_chain CHAIN)
                then raise (OSError_wrong_chain identified_chain)
                else mret tt
            end
        end
  end.

(** [stop]. When [terminate()] or [wait()] raises, Python evaluates the
    expression of the [except] clause, [subprocess.NoSuchProcess], to
    match the exception against it. The two readings of [time.clock()]
    only feed the log line. *)
Definition stop : M unit :=
  self ← get_self;
  match __ps self with
  | None => mret tt
  | Some ps =>
      match terminate_wait env ps with
      | None => modify_self (set_ps None)
      | Some e =>
          if subprocess_has "NoSuchProcess" then
            if isinstance_subprocess e "NoSuchProcess"
            then modify_self (set_ps None)      (* log.warn(...) *)
            else raise (OSError_os e)
          else raise (AttributeError_module "subprocess" "NoSuchProcess")
      end
  end.

End Supervisor.

(** ** Vocabulary for the statements *)

(** The order on versions in words: major first, then minor, then patch,
    each compared as an integer. *)
Definition lexicographic_le (a b : StrictVersion) : Prop :=
  (major a < major b)%N ∨
  (major a = major b ∧
   ((minor a < minor b)%N ∨ (minor a = minor b ∧ (patch a <= patch b)%N))).

(** The order taken component by component. *)
Definition componentwise_le (a b : StrictVersion) : Prop :=
  (major a <= major b)%N ∧ (minor a <= minor b)%N ∧ (patch a <= patch b)%N.

(** Lines 123-126 of [start]: the provider of this attempt, by the mode
    the supervisor is in. *)
Definition create_provider (env : Env) (start_port : option Z) : M Provider :=
  fun st =>
    if start_node (fst st)
    then _create_local_ipc_provider env CHAIN start_port st
    else _create_remote_rpc_provider st.

(** What the two polling loops of one attempt of [start] come to when the
    attempt begins at [started]: the genesis block, or the deadline
    elapsing in either loop. *)
Inductive attempt :=
| GotGenesis (genesis_block : Block) (t : Z)
| DeadlineElapsed (t : Z)
| Unfinished (t : Z).

Definition poll_attempt (env : Env) (provider : Provider) (started : Z) : attempt :=
  let deadline := (started + seconds CONNECTION_TIMEOUT)%Z in
  match wait_connected env (polls_until deadline started 100)
          provider deadline started with
  | Ready _ t1 =>
      match wait_genesis env (polls_until deadline t1 500)
              provider deadline t1 with
      | Ready genesis_block t => GotGenesis genesis_block t
      | Elapsed t => DeadlineElapsed t
      | Spinning => Unfinished t1
      end
  | Elapsed t => DeadlineElapsed t
  | Spinning => Unfinished started
  end.

(** The directory fetch failed in the sense of [get_public_nodes]: the
    [try] block raised. *)
Definition fetch_raised (directory : fetched) : Prop :=
  directory = RequestRaised ∨ ∃ status_code, directory = Response status_code None.

(** The exceptions that building the provider can raise: from
    [_find_geth], from [Popen], or from [addr_list.pop()]. *)
Definition provider_error (e : exn) : Prop :=
  match e with
  | OSError_geth_not_found | AttributeError_group
  | UnicodeDecodeError_output | ValueError_version
  | OSError_incompatible_version _ | OSError_popen | IndexError_pop => True
  | _ => False
  end.

(** The ways a call of [start] can end once a node process is spawned. *)
Definition past_spawn (r : outcome unit) : Prop :=
  r = Returned tt ∨ (∃ chain, r = Raised (OSError_wrong_chain chain))
  ∨ (∃ provider, r = Raised (OSError_cannot_connect provider)).

(** ** Scenarios *)

Definition mainnet_genesis : Block :=
  mkBlock "0xd4e56740f876aef8c010b86a40d5f56745a118d0906a34e69aec8c0db1cb8fa3".
Definition rinkeby_genesis : Block :=
  mkBlock "0x6341fd3daf94b748c72ced5a5b26028f2474f5f00d824504e4fa37a75767e177".

Definition LF : string := String "010"%char EmptyString.

(** The decimal digits of a few scripts, as every version of the Unicode
    database has them: ASCII, Arabic-Indic, Devanagari and fullwidth.
    The texts of the scenarios use no other digit. *)
Definition decimal_digits (c : N) : bool :=
  in_range 48 57 c || in_range 1632 1641 c || in_range 2406 2415 c
  || in_range 65296 65305 c.

(** What [geth version] prints, for a given version number. *)
Definition geth_version_text (number : string) : string :=
  "Geth" +:+ LF +:+ "Version: " +:+ number +:+ "-stable" +:+ LF +:+
  "Architecture: amd64" +:+ LF.

(** A POSIX machine with geth 1.7.3 in [/usr/bin], a free port 30303,
    and a network described by [connected] and [block]. *)
Definition posix_env (connected : Provider -> Z -> bool)
    (block : Provider -> Z -> option Block) : Env :=
  mkEnv connected block
    (fun _ => Some "/usr/bin/geth") (fun _ => geth_version_text "1.7.3")
    false "/tmp" (fun a b => a +:+ "\" +:+ b) 30303
    (fun _ => Some 4242) (fun _ => None) decimal_digits.

(** Nothing answers, neither remote endpoints nor the local node. *)
Definition env_silent : Env := posix_env (fun _ _ => false) (fun _ _ => None).

(** As [env_silent], on a machine without geth. *)
Definition env_no_geth : Env :=
  mkEnv (fun _ _ => false) (fun _ _ => None)
    (fun _ => None) (fun _ => "")
    false "/tmp" (fun a b => a +:+ "\" +:+ b) 30303
    (fun _ => Some 4242) (fun _ => None) decimal_digits.

(** Only the endpoint [http://good:2] answers; it serves rinkeby. *)
Definition env_one_good : Env :=
  posix_env
    (fun provider _ =>
       match provider with
       | HTTPProvider uri => String.eqb uri "http://good:2"
       | IPCProvider _ => false
       end)
    (fun _ _ => Some rinkeby_genesis).

(** Every endpoint answers at once and serves rinkeby. *)
Definition env_rinkeby : Env :=
  posix_env (fun _ _ => true) (fun _ _ => Some rinkeby_genesis).

(** Every endpoint answers at once and serves mainnet. *)
Definition env_mainnet : Env :=
  posix_env (fun _ _ => true) (fun _ _ => Some mainnet_genesis).

(** A Windows machine with geth 1.7.3. *)
Definition env_windows : Env :=
  mkEnv (fun _ _ => true) (fun _ _ => Some rinkeby_genesis)
    (fun _ => Some "C:\geth\geth.exe") (fun _ => geth_version_text "1.7.3")
    true "C:\Temp" (fun a b => a +:+ "\" +:+ b) 30303
    (fun _ => Some 4242) (fun _ => None) decimal_digits.

(** As [env_rinkeby], but the child is gone by the time [stop] runs and
    [terminate()] raises [ProcessLookupError]. *)
Definition env_vanished : Env :=
  mkEnv (fun _ _ => true) (fun _ _ => Some rinkeby_genesis)
    (fun _ => Some "/usr/bin/geth") (fun _ => geth_version_text "1.7.3")
    false "/tmp" (fun a b => a +:+ "\" +:+ b) 30303
    (fun _ => Some 4242) (fun _ => Some ProcessLookupError) decimal_digits.

Definition the_beginning : World := mkWorld 0 0.

(** [NodeProcess(datadir, addr="http://bad:1")]. *)
Definition node_bad : NodeProcess :=
  __init__ "/home/golem" (Some "http://bad:1") false [].

(** [NodeProcess(datadir)] when the directory lists two endpoints. *)
Definition node_two : NodeProcess :=
  __init__ "/home/golem" None false ["http://good:2"; "http://bad:1"].

(** [NodeProcess(datadir, start_node=True)]. *)
Definition node_local : NodeProcess :=
  __init__ "/home/golem" None true FALLBACK_NODE_LIST.

(** What a call of [start] may have used up between the state it found
    and the state it leaves: candidates from the end of the list, one
    [atexit] hook per attempt, and at most 10.5 seconds per attempt. *)
Definition accounted (self : NodeProcess) (w : World)
    (self' : NodeProcess) (w' : World) : Prop :=
  datadir self' = datadir self ∧
  (atexit_hooks w ≤ atexit_hooks w')%nat ∧
  (now w ≤ now w'
   ≤ now w + 10500 * Z.of_nat (atexit_hooks w' - atexit_hooks w))%Z ∧
  ∃ used,
    addr_list self = addr_list self' ++ used ∧
    (atexit_hooks w' ≤ atexit_hooks w + length used + 1)%nat ∧
    (start_node self' = false →
       atexit_hooks w' = (atexit_hooks w + length used)%nat) ∧
    (start_node self = true → used = []) ∧
    (start_node self = false → start_node self' = true → addr_list self' = []).

(** The text does not go on with a digit. *)
Definition ends_numeral (is_digit : N -> bool) (rest : list N) : Prop :=
  match rest with
  | c :: _ => is_digit c = false
  | [] => True
  end.

(** A machine whose [geth] prints an error instead of its version. *)
Definition env_broken_geth : Env :=
  mkEnv (fun _ _ => false) (fun _ _ => None)
    (fun _ => Some "/usr/bin/geth")
    (fun _ => "geth: error while loading shared libraries")
    false "/tmp" (fun a b => a +:+ "\" +:+ b) 30303
    (fun _ => Some 4242) (fun _ => None) decimal_digits.

(** A machine whose [geth] prints its version in fullwidth digits. *)
Definition env_fullwidth_geth : Env :=
  mkEnv (fun _ _ => false) (fun _ _ => None)
    (fun _ => Some "/usr/bin/geth")
    (fun _ => "Version: " +:+ String "239" (String "188" (String "145"
              (String "." (String "239" (String "188" (String "151"
              (String "." (String "239" (String "188" (String "147"
              EmptyString)))))))))))
    false "/tmp" (fun a b => a +:+ "\" +:+ b) 30303
    (fun _ => Some 4242) (fun _ => None) decimal_digits.

(** A machine whose [geth] prints a byte that is not UTF-8. *)
Definition env_latin1_geth : Env :=
  mkEnv (fun _ _ => false) (fun _ _ => None)
    (fun _ => Some "/usr/bin/geth")
    (fun _ => String "255" "Version: 1.7.3")
    false "/tmp" (fun a b => a +:+ "\" +:+ b) 30303
    (fun _ => Some 4242) (fun _ => None) decimal_digits.

(** * Properties *)

Ltac unfold_M :=
  unfold mbind, M_bind, mret, M_ret, raise, out_of_fuel, get_self,
    modify_self, modify_world, time, polling in *.

Lemma start_S env fuel port self w :
  start env (S fuel) port (self, w) =
  if is_running self then (Raised RuntimeError_already_started, (self, w)) else
  match create_provider env port (self, w) with
  | (Returned provider, (self1, w1)) =>
      let self2 := set_web3 (Some provider) self1 in
      let w2 := atexit_register w1 in
      match poll_attempt env provider (now w1) with
      | GotGenesis b t =>
          if negb (String.eqb (identify_chain b) CHAIN)
          then (Raised (OSError_wrong_chain (identify_chain b)), (self2, set_now t w2))
          else (Returned tt, (self2, set_now t w2))
      | DeadlineElapsed t =>
          _start_timed_out (start env fuel) provider port (self2, set_now t w2)
      | Unfinished t => (OutOfFuel, (self2, set_now t w2))
      end
  | (Raised e, st) => (Raised e, st)
  | (OutOfFuel, st) => (OutOfFuel, st)
  end.
Proof.
  cbn [start]. unfold create_provider. unfold_M. cbn [fst snd].
  destruct (is_running self); [done|].
  destruct (start_node self);
    [ destruct (_create_local_ipc_provider env CHAIN port (self, w))
        as [[provider|e|] [self1 w1]]
    | destruct (_create_remote_rpc_provider (self, w))
        as [[provider|e|] [self1 w1]] ]; try done;
    cbn [fst snd]; unfold poll_attempt; cbn [now atexit_register];
    (destruct (wait_connected _ _ _ _ _) as [[] t1|t1|]; cbn [fst snd now set_now];
     [|done..]);
    (destruct (wait_genesis _ _ _ _ _) as [b t|t|]; cbn [fst snd now set_now];
     [|done..]);
    by destruct (negb _).
Qed.

Lemma pop_snoc {A} (l : list A) a : pop (l ++ [a]) = Some (a, l).
Proof. unfold pop. by rewrite last_snoc, removelast_last. Qed.

Lemma pop_Some {A} (l : list A) a rest : pop l = Some (a, rest) → l = rest ++ [a].
Proof.
  destruct l as [|b l] using rev_ind; [done|].
  rewrite pop_snoc. by intros [= -> ->].
Qed.

Lemma pop_None {A} (l : list A) : pop l = None → l = [].
Proof.
  destruct l as [|b l] using rev_ind; [done|]. by rewrite pop_snoc.
Qed.

Lemma create_remote_spec self w :
  _create_remote_rpc_provider (self, w) =
  match pop (addr_list self) with
  | Some (addr, rest) => (Returned (HTTPProvider addr), (set_addr_list rest self, w))
  | None => (Raised IndexError_pop, (self, w))
  end.
Proof.
  unfold _create_remote_rpc_provider. unfold_M. cbn [fst snd].
  by destruct (pop (addr_list self)) as [[addr rest]|].
Qed.

Lemma find_geth_spec env self w :
  _find_geth env (self, w) =
  match find_program env "geth" with
  | None => (Raised OSError_geth_not_found, (self, w))
  | Some geth =>
      match utf8_decode (bytes_of (version_output env geth)) with
      | None => (Raised UnicodeDecodeError_output, (self, w))
      | Some text =>
          match Version.re_search (unicode_digit env) text with
          | None => (Raised AttributeError_group, (self, w))
          | Some m =>
              match Version.parse m with
              | None => (Raised ValueError_version, (self, w))
              | Some ver =>
                  if version_rejected ver
                  then (Raised (OSError_incompatible_version ver), (self, w))
                  else (Returned tt, (set_prog (Some geth) self, w))
              end
          end
      end
  end.
Proof.
  unfold _find_geth. unfold_M.
  destruct (find_program env "geth") as [geth|]; [|done].
  destruct (utf8_decode _) as [text|]; [|done].
  destruct (Version.re_search _ _) as [m|]; [|done].
  destruct (Version.parse m) as [ver|]; [|done].
  by destruct (version_rejected _).
Qed.

Lemma find_geth_outcome env self w :
  (∃ geth, find_program env "geth" = Some geth ∧
           _find_geth env (self, w) = (Returned tt, (set_prog (Some geth) self, w))) ∨
  (∃ e, provider_error e ∧ _find_geth env (self, w) = (Raised e, (self, w))).
Proof.
  rewrite find_geth_spec.
  destruct (find_program env "geth") as [geth|] eqn:Hgeth; [|right; eexists; (split; [|reflexivity]); done].
  destruct (utf8_decode _) as [text|]; [|right; eexists; (split; [|reflexivity]); done].
  destruct (Version.re_search _ _) as [m|]; [|right; eexists; (split; [|reflexivity]); done].
  destruct (Version.parse m) as [ver|]; [|right; eexists; (split; [|reflexivity]); done].
  destruct (version_rejected _); [right; eexists; (split; [|reflexivity]); done|left; by eexists (_ : string)].
Qed.

Lemma create_local_inv env chain port self w r self1 w1 :
  _create_local_ipc_provider env chain port (self, w) = (r, (self1, w1)) →
  w1 = w ∧ start_node self1 = start_node self ∧
  addr_list self1 = addr_list self ∧
  match r with
  | Returned provider => is_running self1 = true ∧ ∃ path, provider = IPCProvider path
  | Raised e => __ps self1 = __ps self ∧ provider_error e
  | OutOfFuel => False
  end.
Proof.
  unfold _create_local_ipc_provider.
  unfold mbind at 1. unfold M_bind at 1.
  destruct (find_geth_outcome env self w) as [(geth & _ & ->)|(e & He & ->)];
    [|intros [= <- <- <-]; by repeat split].
  unfold_M. cbn [fst snd].
  destruct (spawn env _) as [child|]; intros [= <- <- <-]; repeat split; eauto.
Qed.

(** *** The polling loops end *)

Lemma wait_connected_ends env provider deadline polls t :
  (deadline - t < 100 * Z.of_nat polls)%Z →
  wait_connected env (S polls) provider deadline t ≠ Spinning.
Proof.
  revert t. induction polls as [|polls IH]; intros t Hbudget;
    cbn [wait_connected]; destruct (isConnected env provider t); try done;
    destruct (Z.gtb_spec t deadline); try done; [lia|].
  apply IH. lia.
Qed.

Lemma wait_genesis_ends env provider deadline polls t :
  (deadline - t < 500 * Z.of_nat polls)%Z →
  wait_genesis env (S polls) provider deadline t ≠ Spinning.
Proof.
  revert t. induction polls as [|polls IH]; intros t Hbudget;
    cbn [wait_genesis]; destruct (getBlock env provider t); try done;
    destruct (Z.gtb_spec t deadline); try done; [lia|].
  apply IH. lia.
Qed.

Lemma polls_until_enough deadline t step :
  (0 < step)%Z →
  ∃ polls, polls_until deadline t step = S polls ∧
           (deadline - t < step * Z.of_nat polls)%Z.
Proof.
  intros Hstep. eexists; split; [reflexivity|].
  rewrite Nat2Z.inj_succ.
  destruct (Z.lt_ge_cases (deadline - t) 0) as [Hneg|Hpos]; [lia|].
  rewrite Z2Nat.id by (apply Z.div_pos; lia).
  pose proof (Z.mul_succ_div_gt (deadline - t) step Hstep). lia.
Qed.

Lemma poll_attempt_ends env provider started t :
  poll_attempt env provider started ≠ Unfinished t.
Proof.
  unfold poll_attempt.
  set (deadline := (started + seconds CONNECTION_TIMEOUT)%Z).
  destruct (polls_until_enough deadline started 100) as (n & -> & Hn); [lia|].
  pose proof (wait_connected_ends env provider deadline n started Hn).
  destruct (wait_connected _ _ _ _ _) as [[] t1|t1|]; [|done..].
  destruct (polls_until_enough deadline t1 500) as (m & -> & Hm); [lia|].
  pose proof (wait_genesis_ends env provider deadline m t1 Hm).
  by destruct (wait_genesis _ _ _ _ _).
Qed.

(** *** One attempt of [start] *)

Lemma create_provider_inv env port self w r self1 w1 :
  create_provider env port (self, w) = (r, (self1, w1)) →
  w1 = w ∧ start_node self1 = start_node self ∧ r ≠ OutOfFuel ∧
  (start_node self = false →
     __ps self1 = __ps self ∧
     match r with
     | Returned provider =>
         ∃ addr, provider = HTTPProvider addr ∧
                 addr_list self = addr_list self1 ++ [addr]
     | _ => self1 = self
     end) ∧
  (start_node self = true →
     addr_list self1 = addr_list self ∧
     match r with
     | Returned provider =>
         is_running self1 = true ∧ ∃ path, provider = IPCProvider path
     | Raised e => __ps self1 = __ps self
     | OutOfFuel => False
     end) ∧
  (∀ e, r = Raised e → provider_error e).
Proof.
  unfold create_provider. cbn [fst]. destruct (start_node self) eqn:Hmode.
  - intros (-> & Hsn & Hl & Hr)%create_local_inv.
    rewrite Hsn. split_and!; [done|done|by intros ->|done| |].
    + intros _. split; [done|]. destruct r; tauto.
    + intros e ->. tauto.
  - rewrite create_remote_spec.
    destruct (pop (addr_list self)) as [[addr rest]|] eqn:Hpop;
      intros [= <- <- <-]; split_and!; try done.
    + intros _. split; [done|]. exists addr. split; [done|].
      by apply pop_Some.
    + by intros e [= <-].
Qed.

Lemma timed_out_spec (k : option Z → M unit) provider port self w :
  _start_timed_out k provider port (self, w) =
  if start_node self
  then (Raised (OSError_cannot_connect provider), (self, w))
  else k port (set_start_node (is_empty (addr_list self)) self, w).
Proof.
  unfold _start_timed_out. unfold_M. cbn [fst snd]. by destruct (start_node self).
Qed.

(** The mode only ever moves from connect-remote to spawn-local, and as
    long as it has not moved, the child-process handle is untouched. *)
Lemma start_remote_keeps_ps env fuel port st r st' :
  start env fuel port st = (r, st') →
  start_node (fst st') = false →
  start_node (fst st) = false ∧ __ps (fst st') = __ps (fst st).
Proof.
  revert st. induction fuel as [|fuel IH]; intros [self w].
  { intros [= <- <-]. done. }
  rewrite start_S. destruct (is_running self); [by intros [= <- <-]|].
  destruct (create_provider env port (self, w)) as [r1 [self1 w1]] eqn:Hcreate.
  apply create_provider_inv in Hcreate as (-> & Hmode & _ & Hremote & _ & _).
  assert (start_node self1 = false → start_node self = false ∧ __ps self1 = __ps self)
    as Hkeep by (intros Hf; rewrite Hf in Hmode; split; [done|by apply Hremote]).
  clear Hremote.
  destruct r1 as [provider|e|]; [|by intros [= <- <-]..].
  cbn zeta.
  destruct (poll_attempt env provider (now w)) as [b t|t|t].
  - by destruct (negb _); intros [= <- <-].
  - rewrite timed_out_spec. cbn [start_node set_web3].
    destruct (start_node self1) eqn:Hmode1.
    { intros [= <- <-]. cbn [fst start_node set_web3]. congruence. }
    intros Hrec Hfinal. apply IH in Hrec as [_ Hps]; [|done].
    cbn [fst __ps set_start_node set_web3] in Hps.
    destruct Hkeep as [? ?]; [done|]. cbn [fst]. split; congruence.
  - by intros [= <- <-].
Qed.

Lemma is_running_false self : is_running self = false ↔ __ps self = None.
Proof. unfold is_running. by destruct (__ps self). Qed.

(** A supervisor without a child process is never told that it has
    already started. *)
Lemma start_idle_not_already_started env fuel port st :
  is_running (fst st) = false →
  fst (start env fuel port st) ≠ Raised RuntimeError_already_started.
Proof.
  revert st. induction fuel as [|fuel IH]; intros [self w]; [done|].
  cbn [fst]. intros Hidle. rewrite start_S, Hidle.
  destruct (create_provider env port (self, w)) as [r1 [self1 w1]] eqn:Hcreate.
  apply create_provider_inv in Hcreate as (-> & Hmode & _ & Hremote & _ & Herr).
  destruct r1 as [provider|e|]; [|cbn [fst]; intros [= ->]; by apply (Herr _ eq_refl)|done].
  cbn zeta. destruct (poll_attempt env provider (now w)) as [b t|t|t]; [| |done].
  - by destruct (negb _).
  - rewrite timed_out_spec. cbn [start_node set_web3].
    destruct (start_node self1) eqn:Hmode1; [done|].
    apply IH. cbn [fst]. apply is_running_false. cbn [__ps set_start_node set_web3].
    destruct Hremote as [-> _]; [congruence|]. by apply is_running_false.
Qed.

(** [start] never complains that it cannot connect to a remote endpoint:
    the only provider such an error names is the local IPC one. *)
Lemma cannot_connect_names_ipc env fuel port st provider st' :
  start env fuel port st = (Raised (OSError_cannot_connect provider), st') →
  ∃ path, provider = IPCProvider path.
Proof.
  revert st. induction fuel as [|fuel IH]; intros [self w]; [done|].
  rewrite start_S. destruct (is_running self); [done|].
  destruct (create_provider env port (self, w)) as [r1 [self1 w1]] eqn:Hcreate.
  apply create_provider_inv in Hcreate as (-> & Hmode & _ & _ & Hlocal & Herr).
  destruct r1 as [provider1|e|]; [|intros [= -> _]; by destruct (Herr _ eq_refl)|done].
  cbn zeta. destruct (poll_attempt env provider1 (now w)) as [b t|t|t]; [| |done].
  - by destruct (negb _).
  - rewrite timed_out_spec. cbn [start_node set_web3].
    destruct (start_node self1) eqn:Hmode1; [|by apply IH].
    intros [= <- _]. apply Hlocal. congruence.
Qed.

(** In spawn-local mode, every way of ending past the spawn leaves the
    supervisor owning the child. *)
Lemma start_local_past_spawn env fuel port st r st' :
  start env fuel port st = (r, st') →
  start_node (fst st) = true →
  past_spawn r →
  is_running (fst st') = true.
Proof.
  destruct st as [self w]. cbn [fst]. intros Hstart Hmode Hpast.
  destruct fuel as [|fuel].
  { injection Hstart as <- <-. destruct Hpast as [?|[[? ?]|[? ?]]]; done. }
  rewrite start_S in Hstart.
  destruct (is_running self) eqn:Hrun.
  { injection Hstart as <- <-. done. }
  destruct (create_provider env port (self, w)) as [r1 [self1 w1]] eqn:Hcreate.
  apply create_provider_inv in Hcreate as (-> & Hmode1 & _ & _ & Hlocal & Herr).
  destruct (Hlocal Hmode) as [_ Hr1].
  destruct r1 as [provider|e|]; [| |done].
  - destruct Hr1 as [Hrun1 _]. cbn zeta in Hstart.
    destruct (poll_attempt env provider (now w)) as [b t|t|t].
    + by destruct (negb _); injection Hstart as <- <-.
    + rewrite timed_out_spec in Hstart. cbn [start_node set_web3] in Hstart.
      rewrite Hmode1, Hmode in Hstart. by injection Hstart as <- <-.
    + injection Hstart as <- <-. by destruct Hpast as [?|[[? ?]|[? ?]]].
  - injection Hstart as <- <-. specialize (Herr _ eq_refl).
    destruct Hpast as [?|[[? ?]|[? ?]]]; simplify_eq; done.
Qed.

(** *** [start] needs one level of recursion per remaining candidate *)

Lemma start_enough_fuel env fuel port st :
  length (addr_list (fst st)) < fuel →
  fst (start env fuel port st) ≠ OutOfFuel.
Proof.
  revert st. induction fuel as [|fuel IH]; intros [self w]; [cbn; lia|].
  cbn [fst]. intros Hfuel. rewrite start_S. destruct (is_running self); [done|].
  destruct (create_provider env port (self, w)) as [r1 [self1 w1]] eqn:Hcreate.
  apply create_provider_inv in Hcreate as (-> & Hmode & Hr1 & Hremote & _ & _).
  destruct r1 as [provider|e|]; [|done..].
  cbn zeta. pose proof (poll_attempt_ends env provider (now w)) as Hends.
  destruct (poll_attempt env provider (now w)) as [b t|t|t];
    [| |by destruct (Hends t)].
  - by destruct (negb _).
  - rewrite timed_out_spec. cbn [start_node set_web3].
    destruct (start_node self1) eqn:Hmode1; [done|].
    apply IH. cbn [fst addr_list set_start_node set_web3].
    destruct Hremote as [_ (addr & _ & Hlist)]; [congruence|].
    rewrite Hlist, length_app in Hfuel. cbn in Hfuel. lia.
Qed.

Lemma start_more_fuel env (fuel fuel' : nat) port st :
  (fuel ≤ fuel')%nat →
  fst (start env fuel port st) ≠ OutOfFuel →
  start env fuel' port st = start env fuel port st.
Proof.
  revert fuel' st. induction fuel as [|fuel IH]; intros fuel' [self w] Hle; [done|].
  destruct fuel' as [|fuel']; [lia|]. rewrite !start_S.
  destruct (is_running self); [done|].
  destruct (create_provider env port (self, w)) as [[provider|e|] [self1 w1]]; try done.
  cbn zeta. destruct (poll_attempt env provider (now w1)) as [b t|t|t]; try done.
  rewrite !timed_out_spec. destruct (start_node _); [done|].
  apply IH. lia.
Qed.

(** ** The version gate *)

Lemma version_rejected_false v :
  version_rejected v = false ↔
  major v = 1%N ∧ minor v = 7%N ∧ (2 <= patch v <= 999)%N.
Proof.
  destruct v as [a b c].
  unfold version_rejected, Version.ltb, Version.gtb, Version._cmp.
  cbn [major minor patch MIN_GETH_VERSION MAX_GETH_VERSION].
  rewrite orb_false_iff.
  destruct (N.compare_spec a 1) as [->| |];
    [|split; [intros [? ?]; done|lia]..].
  destruct (N.compare_spec b 7) as [->| |];
    [|split; [intros [? ?]; done|lia]..].
  destruct (N.compare_spec c 2), (N.compare_spec c 999);
    split; try (intros [? ?]; done); lia.
Qed.

Lemma lexicographic_bounds v :
  lexicographic_le MIN_GETH_VERSION v ∧ lexicographic_le v MAX_GETH_VERSION ↔
  major v = 1%N ∧ minor v = 7%N ∧ (2 <= patch v <= 999)%N.
Proof.
  destruct v as [a b c]. unfold lexicographic_le.
  cbn [major minor patch MIN_GETH_VERSION MAX_GETH_VERSION]. lia.
Qed.

Lemma componentwise_bounds v :
  componentwise_le MIN_GETH_VERSION v ∧ componentwise_le v MAX_GETH_VERSION ↔
  major v = 1%N ∧ minor v = 7%N ∧ (2 <= patch v <= 999)%N.
Proof.
  destruct v as [a b c]. unfold componentwise_le.
  cbn [major minor patch MIN_GETH_VERSION MAX_GETH_VERSION]. lia.
Qed.

(** C5. For every version [v] that [_find_geth] extracts from the output
    of [geth version] (the output decodes as UTF-8, the pattern finds
    its three numerals, and [StrictVersion] accepts them), the check
    lets [v] pass if and only if [1.7.2 <= v <= 1.7.999], both bounds
    included, in the order that compares major, then minor, then patch
    as integers (here the same versions as the bounds taken component by
    component); a version that does not pass makes [_find_geth] raise
    the incompatible-version error, one that passes makes it return with
    the binary recorded. In particular 1.7.1 and 1.8.0 are rejected,
    1.7.2 and 1.7.999 accepted. *)
Theorem version_gate_inclusive_bounds env geth text m v st :
  find_program env "geth" = Some geth →
  utf8_decode (bytes_of (version_output env geth)) = Some text →
  Version.re_search (unicode_digit env) text = Some m →
  Version.parse m = Some v →
  (version_rejected v = false ↔
     lexicographic_le MIN_GETH_VERSION v ∧ lexicographic_le v MAX_GETH_VERSION) ∧
  (version_rejected v = false ↔
     componentwise_le MIN_GETH_VERSION v ∧ componentwise_le v MAX_GETH_VERSION) ∧
  (version_rejected v = false →
     _find_geth env st = (Returned tt, (set_prog (Some geth) (fst st), snd st))) ∧
  (version_rejected v = true →
     _find_geth env st = (Raised (OSError_incompatible_version v), st)) ∧
  version_rejected (mkVersion 1 7 1) = true ∧
  version_rejected (mkVersion 1 7 2) = false ∧
  version_rejected (mkVersion 1 7 999) = false ∧
  version_rejected (mkVersion 1 8 0) = true.
Proof.
  intros Hgeth Htext Hmatch Hparse. destruct st as [self w].
  rewrite find_geth_spec, Hgeth, Htext, Hmatch, Hparse.
  split_and!; try reflexivity.
  - by rewrite version_rejected_false, lexicographic_bounds.
  - by rewrite version_rejected_false, componentwise_bounds.
  - by intros ->.
  - by intros ->.
Qed.

Lemma version_gate_inclusive_bounds_witness :
  let v := mkVersion 1 7 3 in
  (version_rejected v = false ↔
     lexicographic_le MIN_GETH_VERSION v ∧ lexicographic_le v MAX_GETH_VERSION) ∧
  _find_geth env_silent (node_local, the_beginning)
  = (Returned tt, (set_prog (Some "/usr/bin/geth") node_local, the_beginning)).
Proof.
  pose proof (version_gate_inclusive_bounds env_silent "/usr/bin/geth"
                (codes (geth_version_text "1.7.3"))
                (codes "1", codes "7", codes "3") (mkVersion 1 7 3)
                (node_local, the_beginning)
                eq_refl eq_refl eq_refl eq_refl) as (Hlex & _ & Haccept & _).
  split; [exact Hlex|]. apply Haccept. reflexivity.
Defined.

(** What [_find_geth] does with an output that is no version it can
    read: fullwidth digits match the pattern and are then refused by
    [StrictVersion]; a byte that is not UTF-8 is refused by the decoder. *)
Example find_geth_fullwidth_digits :
  _find_geth env_fullwidth_geth (node_local, the_beginning)
  = (Raised ValueError_version, (node_local, the_beginning)).
Proof. reflexivity. Qed.

Example find_geth_not_utf8 :
  _find_geth env_latin1_geth (node_local, the_beginning)
  = (Raised UnicodeDecodeError_output, (node_local, the_beginning)).
Proof. reflexivity. Qed.

(** ** Chain identification *)

(** C9. [identify_chain] is a function of the genesis hash alone: blocks
    with the same hash get the same name; the three hashes of the table
    are named mainnet, ropsten and rinkeby; every other hash is named
    unknown. *)
Theorem identify_chain_by_table (b b' : Block) :
  (block_hash b = block_hash b' → identify_chain b = identify_chain b') ∧
  (block_hash b = "0xd4e56740f876aef8c010b86a40d5f56745a118d0906a34e69aec8c0db1cb8fa3"
     → identify_chain b = "mainnet") ∧
  (block_hash b = "0x41941023680923e0fe4d74a34bdac8141f2540e3ae90623718e47d66d1ca4a2d"
     → identify_chain b = "ropsten") ∧
  (block_hash b = "0x6341fd3daf94b748c72ced5a5b26028f2474f5f00d824504e4fa37a75767e177"
     → identify_chain b = "rinkeby") ∧
  (block_hash b ≠ "0xd4e56740f876aef8c010b86a40d5f56745a118d0906a34e69aec8c0db1cb8fa3" →
   block_hash b ≠ "0x41941023680923e0fe4d74a34bdac8141f2540e3ae90623718e47d66d1ca4a2d" →
   block_hash b ≠ "0x6341fd3daf94b748c72ced5a5b26028f2474f5f00d824504e4fa37a75767e177" →
   identify_chain b = "unknown").
Proof.
  unfold identify_chain, GENESES. split_and!.
  - by intros ->.
  - intros ->. by rewrite lookup_insert_eq.
  - intros ->. rewrite lookup_insert_ne by done. by rewrite lookup_insert_eq.
  - intros ->. rewrite !lookup_insert_ne by done. by rewrite lookup_insert_eq.
  - intros ? ? ?. rewrite !lookup_insert_ne by done. by rewrite lookup_empty.
Qed.

Lemma identify_chain_by_table_witness :
  identify_chain rinkeby_genesis = "rinkeby" ∧
  identify_chain (mkBlock "0x00") = "unknown".
Proof.
  split.
  - apply (identify_chain_by_table rinkeby_genesis rinkeby_genesis). reflexivity.
  - apply (identify_chain_by_table (mkBlock "0x00") (mkBlock "0x00")); cbn; congruence.
Defined.

(** ** Endpoint discovery *)

Lemma swap_Permutation {A} (x : list A) i j : swap x i j ≡ₚ x.
Proof.
  unfold swap. destruct (x !! i) eqn:Hi; [|done].
  destruct (x !! j) eqn:Hj; [|done].
  by apply Permutation_insert_swap.
Qed.

Lemma shuffle_from_Permutation {A} i rng (x : list A) :
  shuffle_from i rng x ≡ₚ x.
Proof.
  revert rng x. induction i as [|i IH]; intros rng x; [done|].
  cbn [shuffle_from]. destruct (randbelow (S (S i)) rng) as [j rng'].
  rewrite IH. apply swap_Permutation.
Qed.

Lemma shuffle_Permutation {A} rng (x : list A) : shuffle rng x ≡ₚ x.
Proof. apply shuffle_from_Permutation. Qed.

(** C6, as stated, fails: whatever the directory answers is returned as
    it is, be it an empty list, or the JSON body of an error page. *)
Lemma directory_answer_returned_as_is :
  get_public_nodes (Response 200 (Some (JArray []))) [] = JArray [] ∧
  ¬ nonempty_sequence (get_public_nodes (Response 200 (Some (JArray []))) []) ∧
  get_public_nodes (Response 503 (Some (JObject [("error", JString "down")]))) []
  = JObject [("error", JString "down")].
Proof. split_and!; [reflexivity|intros []|reflexivity]. Qed.

(** C6, amended. When the fetch raises (the request itself, or the
    decoding of a body that is not JSON), [get_public_nodes] does not
    raise and returns a permutation of the static fallback list, which is
    not empty. When the body decodes, it is returned as it is, whatever
    the status code and whatever the value. *)
Theorem get_public_nodes_fallback directory rng :
  (fetch_raised directory →
     ∃ addr_list, get_public_nodes directory rng = JArray (JString <$> addr_list)
                  ∧ addr_list ≡ₚ FALLBACK_NODE_LIST
                  ∧ nonempty_sequence (get_public_nodes directory rng)) ∧
  (∀ status_code nodes, directory = Response status_code (Some nodes) →
     get_public_nodes directory rng = nodes).
Proof.
  split.
  - intros Hraised.
    assert (get_public_nodes directory rng
            = JArray (JString <$> shuffle rng FALLBACK_NODE_LIST)) as ->
      by (by destruct Hraised as [->|[status_code ->]]).
    exists (shuffle rng FALLBACK_NODE_LIST).
    pose proof (shuffle_Permutation rng FALLBACK_NODE_LIST) as Hperm.
    split_and!; [done|done|].
    destruct (shuffle rng FALLBACK_NODE_LIST) as [|addr rest]; [|done].
    by apply Permutation_nil_l in Hperm.
  - by intros status_code nodes ->.
Qed.

Lemma get_public_nodes_fallback_witness :
  ∃ addr_list, get_public_nodes RequestRaised [2; 0] = JArray (JString <$> addr_list)
               ∧ addr_list ≡ₚ FALLBACK_NODE_LIST
               ∧ nonempty_sequence (get_public_nodes RequestRaised [2; 0]).
Proof.
  apply (get_public_nodes_fallback RequestRaised [2; 0]). by left.
Defined.

(** ** The local IPC path *)

Lemma create_local_provider env chain port self w provider st' :
  _create_local_ipc_provider env chain port (self, w) = (Returned provider, st') →
  let start_port := default (find_free_net_port env) port in
  provider = IPCProvider
    (if is_windows env
     then "\\.\pipe\" +:+ format_bool (start_node self)
     else posixpath_join (gettempdir env) (chain +:+ "-" +:+ pretty start_port)).
Proof.
  unfold _create_local_ipc_provider.
  unfold mbind at 1. unfold M_bind at 1.
  destruct (find_geth_outcome env self w) as [(geth & _ & ->)|(e & _ & ->)];
    [|done].
  unfold_M. cbn [fst snd start_node set_prog].
  destruct (spawn env _) as [child|]; [|done]. intros [= <- _].
  unfold os_path_join. destruct port; by destruct (is_windows env).
Qed.

Lemma posixpath_join_relative a b :
  String.prefix "/" b = false →
  posixpath_join a b
  = a +:+ (if String.eqb a "" then ""
           else match last (list_ascii_of_string a) with
                | Some "/"%char => ""
                | _ => "/"
                end) +:+ b.
Proof.
  intros Hb. unfold posixpath_join. rewrite Hb.
  destruct (String.eqb a ""); [done|].
  by repeat case_match.
Qed.

(** Off Windows the path is [<tempdir>/rinkeby-<port>], and two ports
    give two paths. *)
Lemma posix_ipc_path env port self w provider st' :
  is_windows env = false →
  _create_local_ipc_provider env CHAIN (Some port) (self, w) = (Returned provider, st') →
  (gettempdir env ≠ "" →
   last (list_ascii_of_string (gettempdir env)) ≠ Some "/"%char →
   provider = IPCProvider (gettempdir env +:+ "/" +:+ CHAIN +:+ "-" +:+ pretty port)) ∧
  (∀ port' self' w' st'',
     _create_local_ipc_provider env CHAIN (Some port') (self', w') = (Returned provider, st'') →
     port' = port).
Proof.
  intros Hposix Hcreate. apply create_local_provider in Hcreate as ->.
  rewrite Hposix. cbn [default]. rewrite posixpath_join_relative by done. split.
  - intros Hne Hsep. apply String.eqb_neq in Hne. rewrite Hne.
    by repeat case_match.
  - intros port' self' w' st'' Hcreate'.
    apply create_local_provider in Hcreate'. rewrite Hposix in Hcreate'.
    cbn [default] in Hcreate'. rewrite posixpath_join_relative in Hcreate' by done.
    injection Hcreate' as Hpath.
    apply (inj (String.app _)) in Hpath. apply (inj (String.app _)) in Hpath.
    unfold CHAIN in Hpath. cbn in Hpath. simplify_eq.
    by apply (inj pretty).
Qed.

(** C8 holds off Windows ([posix_ipc_path]) and fails on Windows, where
    the pipe is named after the boolean [start_node] and not after the
    network and the port: two supervisors on the ports 30303 and 30304
    both get [\\.\pipe\True]. *)
Theorem windows_pipe_ignores_port :
  fst (_create_local_ipc_provider env_windows CHAIN (Some 30303%Z)
         (node_local, the_beginning))
  = Returned (IPCProvider "\\.\pipe\True") ∧
  fst (_create_local_ipc_provider env_windows CHAIN (Some 30304%Z)
         (node_local, the_beginning))
  = Returned (IPCProvider "\\.\pipe\True").
Proof. split; reflexivity. Qed.

(** ** [stop] *)

Lemma stop_without_child env self w :
  __ps self = None → stop env (self, w) = (Returned tt, (self, w)).
Proof. intros Hps. unfold stop. unfold_M. cbn [fst]. by rewrite Hps. Qed.

Lemma stop_terminated env self w ps :
  __ps self = Some ps → terminate_wait env ps = None →
  stop env (self, w) = (Returned tt, (set_ps None self, w)).
Proof.
  intros Hps Hterm. unfold stop. unfold_M. cbn [fst]. by rewrite Hps, Hterm.
Qed.

Lemma stop_terminate_raised env self w ps e :
  __ps self = Some ps → terminate_wait env ps = Some e →
  stop env (self, w)
  = (Raised (AttributeError_module "subprocess" "NoSuchProcess"), (self, w)).
Proof.
  intros Hps Hterm. unfold stop. unfold_M. cbn [fst]. by rewrite Hps, Hterm.
Qed.

(** As long as [terminate()] and [wait()] return, a second [stop] finds
    nothing to do. *)
Lemma stop_twice env st :
  (∀ ps, terminate_wait env ps = None) →
  ∃ st', stop env st = (Returned tt, st') ∧ __ps (fst st') = None
         ∧ stop env st' = (Returned tt, st').
Proof.
  intros Hterm. destruct st as [self w].
  destruct (__ps self) as [ps|] eqn:Hps.
  - exists (set_ps None self, w).
    rewrite (stop_terminated env self w ps), stop_without_child by done. done.
  - exists (self, w). by rewrite stop_without_child.
Qed.

(** C7 fails where it speaks of a process that has vanished. The handler
    of [stop] names [subprocess.NoSuchProcess], which does not exist:
    when [terminate()] raises, looking the handler up raises
    [AttributeError], [stop] passes that on, and the child-process record
    stays set. *)
Theorem stop_after_child_vanished :
  let st := snd (start env_vanished 1 None (node_local, the_beginning)) in
  fst (start env_vanished 1 None (node_local, the_beginning)) = Returned tt ∧
  is_running (fst st) = true ∧
  stop env_vanished st
  = (Raised (AttributeError_module "subprocess" "NoSuchProcess"), st) ∧
  is_running (fst (snd (stop env_vanished st))) = true.
Proof. vm_compute. done. Qed.

(** ** The time-out policy of [start] *)

Lemma wait_connected_elapses env provider deadline polls t :
  (∀ t', t ≤ t' ≤ deadline + 100 → isConnected env provider t' = false)%Z →
  (t ≤ deadline + 100)%Z →
  (deadline - t < 100 * Z.of_nat polls)%Z →
  ∃ t', (deadline < t' ≤ deadline + 100)%Z ∧
        wait_connected env (S polls) provider deadline t = Elapsed t'.
Proof.
  revert t. induction polls as [|polls IH]; intros t Hnever Hwindow Hbudget;
    cbn [wait_connected]; rewrite Hnever by lia;
    destruct (Z.gtb_spec t deadline); try lia; try (exists t; split; [lia|done]).
  apply IH; [|lia..]. intros t' Ht'. apply Hnever. lia.
Qed.

Lemma never_connected_elapses env provider started :
  (∀ t, started ≤ t ≤ started + seconds CONNECTION_TIMEOUT + 100 →
        isConnected env provider t = false)%Z →
  ∃ t, (started + seconds CONNECTION_TIMEOUT < t)%Z ∧
       poll_attempt env provider started = DeadlineElapsed t.
Proof.
  intros Hnever. unfold poll_attempt.
  set (deadline := (started + seconds CONNECTION_TIMEOUT)%Z) in *.
  destruct (polls_until_enough deadline started 100) as (n & -> & Hn); [lia|].
  destruct (wait_connected_elapses env provider deadline n started)
    as (t & Ht & ->); [done|unfold deadline, seconds, CONNECTION_TIMEOUT; lia|done|].
  exists t. split; [lia|done].
Qed.

(** C1, as stated, fails where remote candidates remain: the time-out of
    the first candidate is not final, the next candidate is tried, and
    [start] returns once that one serves rinkeby. *)
Lemma timeout_with_candidates_left_is_not_final :
  create_provider env_one_good None (node_two, the_beginning)
  = (Returned (HTTPProvider "http://bad:1"),
     (set_addr_list ["http://good:2"] node_two, the_beginning)) ∧
  poll_attempt env_one_good (HTTPProvider "http://bad:1") 0 = DeadlineElapsed 10100 ∧
  fst (start env_one_good 2 None (node_two, the_beginning)) = Returned tt ∧
  web3 (fst (snd (start env_one_good 2 None (node_two, the_beginning))))
  = Some (HTTPProvider "http://good:2").
Proof. vm_compute. done. Qed.

(** C1, amended. When the deadline elapses while connecting or awaiting
    genesis: in connect-remote mode the supervisor sets its mode to
    spawn-local if and only if no remote candidate is left at that
    moment, and in either case runs [start] again (with candidates left,
    on the next of them); in spawn-local mode [start] fails for good with
    the cannot-connect error on the provider of the attempt. *)
Theorem start_timeout_policy env fuel port self w provider self1 t :
  is_running self = false →
  create_provider env port (self, w) = (Returned provider, (self1, w)) →
  poll_attempt env provider (now w) = DeadlineElapsed t →
  let self2 := set_web3 (Some provider) self1 in
  let w2 := set_now t (atexit_register w) in
  start env (S fuel) port (self, w) =
    if start_node self
    then (Raised (OSError_cannot_connect provider), (self2, w2))
    else start env fuel port
           (set_start_node (is_empty (addr_list self1)) self2, w2).
Proof.
  intros Hidle Hcreate Hpoll self2 w2.
  rewrite start_S, Hidle, Hcreate. cbn zeta. rewrite Hpoll, timed_out_spec.
  apply create_provider_inv in Hcreate as (_ & Hmode & _).
  cbn [start_node set_web3]. by rewrite Hmode.
Qed.

Lemma start_timeout_policy_witness :
  start env_one_good 2 None (node_two, the_beginning)
  = start env_one_good 1 None
      (mkNode "/home/golem" false (Some (HTTPProvider "http://bad:1"))
         ["http://good:2"] None None,
       mkWorld 10100 1).
Proof.
  apply (start_timeout_policy env_one_good 1 None node_two the_beginning
           (HTTPProvider "http://bad:1")
           (set_addr_list ["http://good:2"] node_two) 10100);
    vm_compute; reflexivity.
Defined.

(** C3, as stated, fails: with the one candidate used up, the time-out
    switches the supervisor to spawn-local; geth is started, and when the
    local node does not answer either, the error names the IPC provider
    and not [http://bad:1]. *)
Lemma lone_bad_candidate_spawns_local :
  (∀ provider t, isConnected env_silent provider t = false) ∧
  fst (start env_silent 2 None (node_bad, the_beginning))
  = Raised (OSError_cannot_connect (IPCProvider "/tmp/rinkeby-30303")) ∧
  fst (start env_silent 2 None (node_bad, the_beginning))
  ≠ Raised (OSError_cannot_connect (HTTPProvider "http://bad:1")) ∧
  is_running (fst (snd (start env_silent 2 None (node_bad, the_beginning)))) = true.
Proof. split; [done|]. vm_compute. done. Qed.

(** C3, amended. For a supervisor built on the candidate list
    [["http://bad:1"]] with [start_node] false, if the liveness check
    never succeeds within the deadline, [start] sets the mode to
    spawn-local (no candidate is left) and runs again in that mode: its
    outcome is that of the spawn-local attempt, which is never a
    cannot-connect error on [http://bad:1], and is the geth-not-found
    error when there is no geth binary. *)
Theorem lone_candidate_falls_back env datadir public_nodes port w fuel :
  (∀ t, now w ≤ t ≤ now w + seconds CONNECTION_TIMEOUT + 100 →
        isConnected env (HTTPProvider "http://bad:1") t = false)%Z →
  let st := (__init__ datadir (Some "http://bad:1") false public_nodes, w) in
  (∃ t, (now w + seconds CONNECTION_TIMEOUT < t)%Z ∧
        start env (S (S fuel)) port st
        = start env (S fuel) port
            (mkNode datadir true (Some (HTTPProvider "http://bad:1")) [] None None,
             mkWorld t (S (atexit_hooks w)))) ∧
  fst (start env (S (S fuel)) port st)
  ≠ Raised (OSError_cannot_connect (HTTPProvider "http://bad:1")) ∧
  fst (start env (S (S fuel)) port st) ≠ OutOfFuel ∧
  (find_program env "geth" = None →
   fst (start env (S (S fuel)) port st) = Raised OSError_geth_not_found).
Proof.
  intros Hnever st.
  destruct (never_connected_elapses _ _ _ Hnever) as (t & Ht & Hpoll).
  assert (start env (S (S fuel)) port st
          = start env (S fuel) port
              (mkNode datadir true (Some (HTTPProvider "http://bad:1")) [] None None,
               mkWorld t (S (atexit_hooks w)))) as Hrestart.
  { unfold st. rewrite start_S.
    change (__init__ datadir (Some "http://bad:1") false public_nodes)
      with (mkNode datadir false None ["http://bad:1"] None None).
    change (create_provider env port _)
      with (@Returned Provider (HTTPProvider "http://bad:1"),
            (mkNode datadir false None [] None None, w)).
    cbn [is_running __ps]. cbn zeta. by rewrite Hpoll, timed_out_spec. }
  split_and!.
  - by exists t.
  - destruct (start env (S (S fuel)) port st) as [r st'] eqn:Hstart.
    cbn [fst]. intros ->.
    by apply cannot_connect_names_ipc in Hstart as [path ?].
  - apply start_enough_fuel. cbn. lia.
  - intros Hgeth. rewrite Hrestart, start_S. cbn [is_running __ps].
    unfold create_provider, _create_local_ipc_provider. cbn [fst start_node].
    unfold mbind at 1. unfold M_bind at 1. by rewrite find_geth_spec, Hgeth.
Qed.

Lemma lone_candidate_falls_back_witness :
  fst (start env_no_geth 2 None (node_bad, the_beginning))
  = Raised OSError_geth_not_found.
Proof.
  apply (lone_candidate_falls_back env_no_geth "/home/golem" [] None
           the_beginning 0); done.
Defined.

(** ** The wrong chain *)

(** C4. When an attempt of [start] obtains a genesis block that the
    table does not name rinkeby (mainnet, say), [start] raises the
    wrong-chain error there and then: the mode is as it was, nothing
    further is popped or spawned, the one hook of this attempt is all
    that was registered, and no level of recursion is used. *)
Theorem wrong_chain_is_final env fuel port self w provider self1 b t :
  is_running self = false →
  create_provider env port (self, w) = (Returned provider, (self1, w)) →
  poll_attempt env provider (now w) = GotGenesis b t →
  identify_chain b ≠ CHAIN →
  start env (S fuel) port (self, w)
  = (Raised (OSError_wrong_chain (identify_chain b)),
     (set_web3 (Some provider) self1, set_now t (atexit_register w))) ∧
  start env 1 port (self, w) = start env (S fuel) port (self, w) ∧
  start_node self1 = start_node self.
Proof.
  intros Hidle Hcreate Hpoll Hchain.
  rewrite !start_S, Hidle, Hcreate. cbn zeta. rewrite Hpoll.
  apply String.eqb_neq in Hchain. rewrite Hchain. cbn [negb].
  by apply create_provider_inv in Hcreate as (_ & Hmode & _).
Qed.

Lemma wrong_chain_is_final_witness :
  start env_mainnet 1 None (node_bad, the_beginning)
  = (Raised (OSError_wrong_chain "mainnet"),
     (mkNode "/home/golem" false (Some (HTTPProvider "http://bad:1")) [] None None,
      mkWorld 0 1)).
Proof.
  apply (wrong_chain_is_final env_mainnet 0 None node_bad the_beginning
           (HTTPProvider "http://bad:1") (set_addr_list [] node_bad)
           mainnet_genesis 0); vm_compute; congruence.
Defined.

(** ** Starting twice *)

Lemma start_returned_was_idle env fuel port st st' :
  start env fuel port st = (Returned tt, st') → is_running (fst st) = false.
Proof.
  destruct fuel as [|fuel], st as [self w]; [done|]. cbn [fst].
  rewrite start_S. by destruct (is_running self).
Qed.

Lemma start_remote_empty env fuel port self w :
  is_running self = false → start_node self = false → addr_list self = [] →
  start env (S fuel) port (self, w) = (Raised IndexError_pop, (self, w)).
Proof.
  intros Hidle Hmode Hlist. rewrite start_S, Hidle.
  unfold create_provider. cbn [fst]. rewrite Hmode, create_remote_spec, Hlist.
  done.
Qed.

Lemma start_remote_next env fuel port self w l addr :
  is_running self = false → start_node self = false →
  addr_list self = l ++ [addr] →
  let self2 := set_web3 (Some (HTTPProvider addr)) (set_addr_list l self) in
  let w2 := atexit_register w in
  create_provider env port (self, w)
  = (Returned (HTTPProvider addr), (set_addr_list l self, w)) ∧
  start env (S fuel) port (self, w) =
    match poll_attempt env (HTTPProvider addr) (now w) with
    | GotGenesis b t =>
        if negb (String.eqb (identify_chain b) CHAIN)
        then (Raised (OSError_wrong_chain (identify_chain b)), (self2, set_now t w2))
        else (Returned tt, (self2, set_now t w2))
    | DeadlineElapsed t =>
        start env fuel port (set_start_node (is_empty l) self2, set_now t w2)
    | Unfinished t => (OutOfFuel, (self2, set_now t w2))
    end.
Proof.
  intros Hidle Hmode Hlist self2 w2.
  assert (create_provider env port (self, w)
          = (Returned (HTTPProvider addr), (set_addr_list l self, w))) as Hcreate.
  { unfold create_provider. cbn [fst].
    by rewrite Hmode, create_remote_spec, Hlist, pop_snoc. }
  split; [done|]. rewrite start_S, Hidle, Hcreate. cbn zeta.
  destruct (poll_attempt env (HTTPProvider addr) (now w)); try done.
  rewrite timed_out_spec. cbn [start_node set_web3 set_addr_list addr_list].
  by rewrite Hmode.
Qed.

(** C2, as stated, fails in connect-remote mode: after a first [start]
    that returned, a second one without [stop] in between raises nothing
    and connects to the next candidate. *)
Lemma second_start_in_remote_mode_connects_again :
  let first := start env_rinkeby 3 None (node_two, the_beginning) in
  let second := start env_rinkeby 3 None (snd first) in
  fst first = Returned tt ∧
  web3 (fst (snd first)) = Some (HTTPProvider "http://bad:1") ∧
  fst second = Returned tt ∧
  fst second ≠ Raised RuntimeError_already_started ∧
  web3 (fst (snd second)) = Some (HTTPProvider "http://good:2").
Proof. vm_compute. done. Qed.

(** C2, amended. Without a [stop] in between, a second [start] raises
    the already-started error exactly when the supervisor owns a child
    process. It owns one after a first [start] in spawn-local mode that
    got past spawning geth, whether that call returned, timed out or met
    the wrong chain. It owns none after a first [start] that returned
    still in connect-remote mode: the second [start] then pops the last
    remaining candidate and runs a connection attempt on it, as a first
    call would, or, when no candidate is left, raises [IndexError] from
    the pop and changes nothing. *)
Theorem second_start env fuel port st r st' fuel' port' :
  start env fuel port st = (r, st') →
  (is_running (fst st') = true →
     start env (S fuel') port' st' = (Raised RuntimeError_already_started, st')) ∧
  (is_running (fst st') = false →
     fst (start env fuel' port' st') ≠ Raised RuntimeError_already_started) ∧
  (start_node (fst st) = true → past_spawn r → is_running (fst st') = true) ∧
  (start_node (fst st') = false → r = Returned tt → is_running (fst st') = false) ∧
  (start_node (fst st') = false → r = Returned tt → addr_list (fst st') = [] →
     start env (S fuel') port' st' = (Raised IndexError_pop, st')) ∧
  (start_node (fst st') = false → r = Returned tt →
   ∀ l addr, addr_list (fst st') = l ++ [addr] →
     let self2 := set_web3 (Some (HTTPProvider addr)) (set_addr_list l (fst st')) in
     let w2 := atexit_register (snd st') in
     create_provider env port' st'
     = (Returned (HTTPProvider addr), (set_addr_list l (fst st'), snd st')) ∧
     start env (S fuel') port' st' =
       match poll_attempt env (HTTPProvider addr) (now (snd st')) with
       | GotGenesis b t =>
           if negb (String.eqb (identify_chain b) CHAIN)
           then (Raised (OSError_wrong_chain (identify_chain b)),
                 (self2, set_now t w2))
           else (Returned tt, (self2, set_now t w2))
       | DeadlineElapsed t =>
           start env fuel' port'
             (set_start_node (is_empty l) self2, set_now t w2)
       | Unfinished t => (OutOfFuel, (self2, set_now t w2))
       end).
Proof.
  intros Hstart.
  assert (start_node (fst st') = false → r = Returned tt →
          is_running (fst st') = false) as Hidle.
  { intros Hremote ->.
    destruct (start_remote_keeps_ps _ _ _ _ _ _ Hstart Hremote) as [_ Hps].
    apply is_running_false. rewrite Hps. apply is_running_false.
    by apply (start_returned_was_idle env fuel port st st'). }
  split_and!.
  - destruct st' as [self' w']. cbn [fst]. intros Hrun. by rewrite start_S, Hrun.
  - apply start_idle_not_already_started.
  - by apply (start_local_past_spawn env fuel port st r st').
  - done.
  - intros Hremote Hr Hlist. destruct st' as [self' w']. cbn [fst] in *.
    apply start_remote_empty; [by apply Hidle|done|done].
  - intros Hremote Hr l addr Hlist. destruct st' as [self' w']. cbn [fst snd] in *.
    apply start_remote_next; [by apply Hidle|done|done].
Qed.

Lemma second_start_witness :
  let st' := snd (start env_rinkeby 1 None (node_local, the_beginning)) in
  start env_rinkeby 1 None st' = (Raised RuntimeError_already_started, st').
Proof.
  intros st'.
  destruct (second_start env_rinkeby 1 None (node_local, the_beginning)
              (Returned tt) st' 0 None eq_refl) as (Hraise & _ & Hspawned & _).
  apply Hraise, Hspawned; [reflexivity|by left].
Defined.

(** ** Who owns a child process *)

(** C10. Only a local spawn sets the child-process handle: whenever
    [start] returns with the supervisor still in connect-remote mode, no
    child process is owned and [is_running] is false, before the call as
    after it. *)
Theorem remote_start_owns_no_child env fuel port st st' :
  start env fuel port st = (Returned tt, st') →
  start_node (fst st') = false →
  start_node (fst st) = false ∧
  __ps (fst st) = None ∧ __ps (fst st') = None ∧
  is_running (fst st) = false ∧ is_running (fst st') = false.
Proof.
  intros Hstart Hremote.
  destruct (start_remote_keeps_ps _ _ _ _ _ _ Hstart Hremote) as [Hmode Hps].
  pose proof (start_returned_was_idle _ _ _ _ _ Hstart) as Hidle.
  pose proof Hidle as Hnone%is_running_false.
  split_and!; try done; [congruence|].
  apply is_running_false. congruence.
Qed.

Lemma remote_start_owns_no_child_witness :
  is_running node_two = false ∧
  is_running (fst (snd (start env_one_good 2 None (node_two, the_beginning)))) = false.
Proof.
  destruct (remote_start_owns_no_child env_one_good 2 None
              (node_two, the_beginning)
              (snd (start env_one_good 2 None (node_two, the_beginning))))
    as (_ & _ & _ & Hbefore & Hafter); [vm_compute; reflexivity..|].
  split; [exact Hbefore|exact Hafter].
Defined.

(** *** [start] always ends *)

Lemma start_total env port st :
  ∃ r st', start env (S (length (addr_list (fst st)))) port st = (r, st')
           ∧ r ≠ OutOfFuel.
Proof.
  pose proof (start_enough_fuel env (S (length (addr_list (fst st)))) port st) as H.
  destruct (start env _ port st) as [r st']. exists r, st'. split; [done|].
  apply H. lia.
Qed.

(** * Further properties of the supervisor *)

(** ** The polling loops, step by step *)

Lemma wait_connected_ready env provider deadline polls t a t' :
  wait_connected env polls provider deadline t = Ready a t' →
  isConnected env provider t' = true ∧ (t ≤ t')%Z ∧
  ((t ≤ deadline + 100)%Z → (t' ≤ deadline + 100)%Z).
Proof.
  revert t. induction polls as [|polls IH]; intros t; [done|].
  cbn [wait_connected]. destruct (isConnected env provider t) eqn:Hlive.
  { intros [= _ <-]. split_and!; [done|lia|done]. }
  destruct (Z.gtb_spec t deadline); [done|].
  intros (? & ? & ?)%IH. split_and!; [done|lia|lia].
Qed.

Lemma wait_connected_late env provider deadline polls t t' :
  wait_connected env polls provider deadline t = Elapsed t' →
  (deadline < t')%Z ∧ (t ≤ t')%Z ∧
  ((t ≤ deadline + 100)%Z → (t' ≤ deadline + 100)%Z).
Proof.
  revert t. induction polls as [|polls IH]; intros t; [done|].
  cbn [wait_connected]. destruct (isConnected env provider t); [done|].
  destruct (Z.gtb_spec t deadline).
  { intros [= <-]. split_and!; [lia|lia|done]. }
  intros (? & ? & ?)%IH. split_and!; lia.
Qed.

Lemma wait_genesis_ready env provider deadline polls t b t' :
  wait_genesis env polls provider deadline t = Ready b t' →
  getBlock env provider t' = Some b ∧ (t ≤ t')%Z ∧
  ((t ≤ deadline + 500)%Z → (t' ≤ deadline + 500)%Z).
Proof.
  revert t. induction polls as [|polls IH]; intros t; [done|].
  cbn [wait_genesis]. destruct (getBlock env provider t) as [b0|] eqn:Hblock.
  { intros [= <- <-]. split_and!; [done|lia|done]. }
  destruct (Z.gtb_spec t deadline); [done|].
  intros (? & ? & ?)%IH. split_and!; [done|lia|lia].
Qed.

Lemma wait_genesis_late env provider deadline polls t t' :
  wait_genesis env polls provider deadline t = Elapsed t' →
  (deadline < t')%Z ∧ (t ≤ t')%Z ∧
  ((t ≤ deadline + 500)%Z → (t' ≤ deadline + 500)%Z).
Proof.
  revert t. induction polls as [|polls IH]; intros t; [done|].
  cbn [wait_genesis]. destruct (getBlock env provider t); [done|].
  destruct (Z.gtb_spec t deadline).
  { intros [= <-]. split_and!; [lia|lia|done]. }
  intros (? & ? & ?)%IH. split_and!; lia.
Qed.

Lemma poll_attempt_genesis env provider started b t :
  poll_attempt env provider started = GotGenesis b t →
  (started ≤ t ≤ started + 10500)%Z ∧ getBlock env provider t = Some b ∧
  ∃ t1, (started ≤ t1 ≤ t)%Z ∧ isConnected env provider t1 = true.
Proof.
  unfold poll_attempt, seconds, CONNECTION_TIMEOUT.
  destruct (wait_connected _ _ _ _ _) as [[] t1|t1|] eqn:Hlive; [|done..].
  apply wait_connected_ready in Hlive as (Hlive & ? & ?).
  destruct (wait_genesis _ _ _ _ _) as [b' t'|t'|] eqn:Hgen; [|done..].
  apply wait_genesis_ready in Hgen as (Hgen & ? & ?).
  intros [= <- <-]. split_and!; [lia|lia|done|].
  exists t1. split; [lia|done].
Qed.

Lemma poll_attempt_elapsed env provider started t :
  poll_attempt env provider started = DeadlineElapsed t →
  (started + 10000 < t ≤ started + 10500)%Z.
Proof.
  unfold poll_attempt, seconds, CONNECTION_TIMEOUT.
  destruct (wait_connected _ _ _ _ _) as [[] t1|t1|] eqn:Hlive; [| |done].
  - apply wait_connected_ready in Hlive as (Hlive & ? & ?).
    destruct (wait_genesis _ _ _ _ _) as [b' t'|t'|] eqn:Hgen; [done| |done].
    apply wait_genesis_late in Hgen as (? & ? & ?).
    intros [= <-]. lia.
  - apply wait_connected_late in Hlive as (? & ? & ?). intros [= <-]. lia.
Qed.

(** ** One call of [start], case by case *)

Lemma start_step env fuel port self w r st' :
  start env (S fuel) port (self, w) = (r, st') →
  (is_running self = true ∧ r = Raised RuntimeError_already_started ∧ st' = (self, w)) ∨
  (is_running self = false ∧
   ∃ e self1, create_provider env port (self, w) = (Raised e, (self1, w))
              ∧ r = Raised e ∧ st' = (self1, w)) ∨
  (is_running self = false ∧
   ∃ provider self1,
     create_provider env port (self, w) = (Returned provider, (self1, w)) ∧
     let self2 := set_web3 (Some provider) self1 in
     let w2 := atexit_register w in
     (∃ b t, poll_attempt env provider (now w) = GotGenesis b t ∧
             st' = (self2, set_now t w2) ∧
             r = if negb (String.eqb (identify_chain b) CHAIN)
                 then Raised (OSError_wrong_chain (identify_chain b))
                 else Returned tt) ∨
     (∃ t, poll_attempt env provider (now w) = DeadlineElapsed t ∧
           start_node self = true ∧
           r = Raised (OSError_cannot_connect provider) ∧
           st' = (self2, set_now t w2)) ∨
     (∃ t, poll_attempt env provider (now w) = DeadlineElapsed t ∧
           start_node self = false ∧
           start env fuel port
             (set_start_node (is_empty (addr_list self1)) self2, set_now t w2)
           = (r, st'))).
Proof.
  rewrite start_S. intros H.
  destruct (is_running self); [injection H as <- <-; by left|].
  right. destruct (create_provider env port (self, w)) as [r1 [self1 w1]] eqn:Hcreate.
  pose proof Hcreate as (-> & Hmode & Hr1 & _)%create_provider_inv.
  destruct r1 as [provider|e|];
    [|injection H as <- <-; left; split; [done|]; by exists e, self1|done].
  right. split; [done|]. exists provider, self1. split; [done|]. cbn zeta in *.
  pose proof (poll_attempt_ends env provider (now w)) as Hends.
  destruct (poll_attempt env provider (now w)) as [b t|t|t]; [| |by destruct (Hends t)].
  - left. exists b, t. by destruct (negb _); injection H as <- <-.
  - rewrite timed_out_spec in H. cbn [start_node set_web3] in H. rewrite Hmode in H.
    destruct (start_node self).
    + injection H as <- <-. right; left. by exists t.
    + right; right. by exists t.
Qed.

(** ** What a call of [start] uses up *)

Lemma create_provider_datadir env port self w r self1 w1 :
  create_provider env port (self, w) = (r, (self1, w1)) →
  datadir self1 = datadir self ∧ web3 self1 = web3 self.
Proof.
  unfold create_provider. cbn [fst]. destruct (start_node self).
  - unfold _create_local_ipc_provider.
    unfold mbind at 1. unfold M_bind at 1.
    destruct (find_geth_outcome env self w) as [(geth & _ & ->)|(e & _ & ->)];
      [|by intros [= <- <- <-]].
    unfold_M. cbn [fst snd].
    by destruct (spawn env _) as [child|]; intros [= <- <- <-].
  - rewrite create_remote_spec.
    by destruct (pop (addr_list self)) as [[addr rest]|]; intros [= <- <- <-].
Qed.

Lemma accounted_refl self w : accounted self w self w.
Proof.
  split_and!; [done|lia|lia|lia|].
  exists []. rewrite app_nil_r. cbn [length].
  split_and!; [done|lia|lia|done|congruence].
Qed.

Lemma start_accounting env fuel port self w r self' w' :
  start env fuel port (self, w) = (r, (self', w')) →
  accounted self w self' w'.
Proof.
  revert self w. induction fuel as [|fuel IH]; intros self w Hstart.
  { injection Hstart as <- <- <-. apply accounted_refl. }
  apply start_step in Hstart
    as [(_ & _ & [= <- <-])|[(_ & e & self1 & Hcreate & _ & [= <- <-])
       |(_ & provider & self1 & Hcreate & Hrest)]].
  - apply accounted_refl.
  - pose proof Hcreate as [Hdir _]%create_provider_datadir.
    apply create_provider_inv in Hcreate as (_ & Hmode & _ & Hremote & Hlocal & _).
    destruct (start_node self) eqn:Hsn.
    + destruct Hlocal as [Hlist _]; [done|].
      split_and!; [done|lia|lia|lia|].
      exists []. rewrite app_nil_r. cbn [length].
      split_and!; [done|lia|lia|done|congruence].
    + destruct Hremote as [_ ->]; [done|]. apply accounted_refl.
  - pose proof Hcreate as [Hdir _]%create_provider_datadir.
    apply create_provider_inv in Hcreate as (_ & Hmode & _ & Hremote & Hlocal & _).
    cbn zeta in Hrest.
    assert (∃ used1, addr_list self = addr_list self1 ++ used1 ∧
                     (if start_node self then used1 = [] else length used1 = 1%nat))
      as (used1 & Hused1 & Hlen1).
    { destruct (start_node self).
      - exists []. rewrite app_nil_r. by destruct Hlocal as [-> _].
      - destruct Hremote as [_ (addr & _ & ->)]; [done|]. by exists [addr]. }
    destruct Hrest as [(b & t & Hpoll & [= -> ->] & _)
                      |[(t & Hpoll & Hsn & _ & [= -> ->])
                       |(t & Hpoll & Hsn & Hrec)]].
    + apply poll_attempt_genesis in Hpoll as (Ht & _). unfold accounted.
      cbn [now set_now atexit_hooks atexit_register datadir addr_list start_node set_web3].
      split_and!; [done|lia|lia|lia|].
      exists used1. rewrite Hmode.
      destruct (start_node self); [subst used1; cbn [length]|rewrite Hlen1];
        split_and!; try done; try lia; congruence.
    + apply poll_attempt_elapsed in Hpoll as Ht. unfold accounted.
      cbn [now set_now atexit_hooks atexit_register datadir addr_list start_node set_web3].
      rewrite Hsn in Hlen1. subst used1.
      split_and!; [done|lia|lia|lia|].
      exists []. cbn [length]. rewrite Hmode, Hsn.
      split_and!; try done; try lia.
    + apply poll_attempt_elapsed in Hpoll as Ht.
      apply IH in Hrec as (Hdir' & Hhooks & Hnow & used & Hused & Hmax & Hexact & Hloc & Hfall).
      cbn [now set_now atexit_hooks atexit_register datadir addr_list start_node
             set_web3 set_start_node] in *.
      rewrite Hsn in Hlen1. unfold accounted.
      split_and!; [congruence|lia|lia|nia|].
      exists (used ++ used1). rewrite Hused1, Hused, length_app, Hlen1.
      split_and!; [by rewrite app_assoc|lia|intros ?%Hexact; lia|congruence|].
      intros _ Hfinal.
      destruct (is_empty (addr_list self1)) eqn:Hempty.
      * rewrite Hloc in Hused by done. rewrite app_nil_r in Hused.
        rewrite <- Hused. by destruct (addr_list self1).
      * by apply Hfall.
Qed.

Lemma identify_chain_rinkeby b :
  identify_chain b = CHAIN ↔ block_hash b = block_hash rinkeby_genesis.
Proof.
  unfold identify_chain, GENESES, CHAIN. rewrite !lookup_insert, lookup_empty.
  repeat case_decide; cbn [default block_hash rinkeby_genesis]; split;
    intros; simplify_eq; try done; congruence.
Qed.

Lemma start_returned env fuel port self w self' w' :
  start env fuel port (self, w) = (Returned tt, (self', w')) →
  (atexit_hooks w < atexit_hooks w')%nat ∧
  ∃ provider b t1,
    web3 self' = Some provider ∧
    isConnected env provider t1 = true ∧ (now w ≤ t1 ≤ now w')%Z ∧
    getBlock env provider (now w') = Some b ∧ identify_chain b = CHAIN ∧
    match provider with
    | HTTPProvider addr =>
        start_node self' = false ∧
        ∃ rest, addr_list self = addr_list self' ++ addr :: rest
    | IPCProvider _ => start_node self' = true ∧ is_running self' = true
    end.
Proof.
  revert self w. induction fuel as [|fuel IH]; intros self w Hstart; [done|].
  apply start_step in Hstart
    as [(_ & [=] & _)|[(_ & e & self1 & _ & [=] & _)
       |(_ & provider & self1 & Hcreate & Hrest)]].
  apply create_provider_inv in Hcreate as (_ & Hmode & _ & Hremote & Hlocal & _).
  cbn zeta in Hrest.
  destruct Hrest as [(b & t & Hpoll & [= -> ->] & Hr)
                    |[(t & _ & _ & [=] & _)|(t & Hpoll & Hsn & Hrec)]].
  - apply poll_attempt_genesis in Hpoll as (Ht & Hblock & t1 & Ht1 & Hlive).
    cbn [now set_now atexit_hooks atexit_register]. split; [lia|].
    exists provider, b, t1.
    destruct (String.eqb_spec (identify_chain b) CHAIN) as [Hchain|]; [|done].
    split_and!; [done|done|lia|lia|done|done|].
    cbn [start_node set_web3 addr_list is_running __ps]. rewrite Hmode.
    destruct (start_node self).
    + destruct Hlocal as (_ & Hrun & path & ->); done.
    + destruct Hremote as (_ & addr & -> & Hlist); [done|]. eauto.
  - apply poll_attempt_elapsed in Hpoll as Ht.
    apply IH in Hrec as (Hhooks & provider' & b & t1 & Hweb3 & Hlive & Ht1 & Hblock & Hchain & Hkind).
    cbn [now set_now atexit_hooks atexit_register addr_list set_start_node set_web3] in *.
    split; [lia|]. exists provider', b, t1.
    split_and!; [done|done|lia|lia|done|done|].
    destruct provider' as [path|addr]; [done|].
    destruct Hkind as (? & rest & Hlist). split; [done|].
    destruct Hremote as (_ & addr0 & _ & ->); [done|].
    exists (rest ++ [addr0]). rewrite Hlist. by rewrite <- app_assoc.
Qed.

Lemma cannot_connect_is_late env fuel port self w provider self' w' :
  start env fuel port (self, w)
  = (Raised (OSError_cannot_connect provider), (self', w')) →
  (now w + 10000 < now w')%Z ∧ start_node self' = true ∧
  web3 self' = Some provider ∧ is_running self' = true.
Proof.
  revert self w. induction fuel as [|fuel IH]; intros self w Hstart; [done|].
  apply start_step in Hstart
    as [(_ & [=] & _)|[(_ & e & self1 & Hcreate & [= <-] & _)
       |(_ & provider1 & self1 & Hcreate & Hrest)]].
  { by apply create_provider_inv in Hcreate as (_ & _ & _ & _ & _ & Herr);
      destruct (Herr _ eq_refl). }
  apply create_provider_inv in Hcreate as (_ & Hmode & _ & _ & Hlocal & _).
  cbn zeta in Hrest.
  destruct Hrest as [(b & t & _ & _ & Hr)
                    |[(t & Hpoll & Hsn & [= ->] & [= -> ->])|(t & Hpoll & Hsn & Hrec)]].
  - by destruct (negb _).
  - apply poll_attempt_elapsed in Hpoll as Ht.
    cbn [now set_now start_node set_web3 web3 is_running __ps].
    destruct (Hlocal Hsn) as (_ & Hrun & _).
    split_and!; [lia|congruence|done|done].
  - apply poll_attempt_elapsed in Hpoll as Ht.
    apply IH in Hrec as (Hlate & ?). cbn [now set_now] in Hlate.
    split; [lia|done].
Qed.

(** ** Endpoints that answer, endpoints that never do *)

Lemma wait_connected_S env provider deadline polls t :
  wait_connected env (S polls) provider deadline t =
  if isConnected env provider t then Ready tt t
  else if (t >? deadline)%Z then Elapsed t
  else wait_connected env polls provider deadline (t + 100).
Proof. done. Qed.

Lemma wait_genesis_S env provider deadline polls t :
  wait_genesis env (S polls) provider deadline t =
  match getBlock env provider t with
  | Some genesis_block => Ready genesis_block t
  | None => if (t >? deadline)%Z then Elapsed t
            else wait_genesis env polls provider deadline (t + 500)
  end.
Proof. done. Qed.

(** ** What every call of [start] guarantees *)

(** X1. [start] terminates: the recursion through [_start_timed_out] is
    at most one level per remaining candidate plus one, and with that
    much budget or more the outcome is the same. *)
Theorem start_terminates env (fuel : nat) port st :
  (length (addr_list (fst st)) < fuel)%nat →
  fst (start env fuel port st) ≠ OutOfFuel ∧
  start env fuel port st
  = start env (S (length (addr_list (fst st)))) port st.
Proof.
  intros Hfuel. split; [by apply start_enough_fuel|].
  apply start_more_fuel; [lia|]. apply start_enough_fuel. lia.
Qed.

Lemma start_terminates_witness :
  fst (start env_silent 7 None (node_two, the_beginning)) ≠ OutOfFuel ∧
  start env_silent 7 None (node_two, the_beginning)
  = start env_silent 3 None (node_two, the_beginning).
Proof.
  apply (start_terminates env_silent 7 None (node_two, the_beginning)).
  cbn. lia.
Defined.

(** X2. [start] returns only when verified: the provider left in [web3]
    answered a liveness check during the call and, at the moment [start]
    returned, served a genesis block whose hash is the rinkeby one. *)
Theorem start_returns_only_on_rinkeby env fuel port self w self' w' :
  start env fuel port (self, w) = (Returned tt, (self', w')) →
  ∃ provider b t1,
    web3 self' = Some provider ∧
    (now w ≤ t1 ≤ now w')%Z ∧ isConnected env provider t1 = true ∧
    getBlock env provider (now w') = Some b ∧
    block_hash b
    = "0x6341fd3daf94b748c72ced5a5b26028f2474f5f00d824504e4fa37a75767e177".
Proof.
  intros (_ & provider & b & t1 & ? & ? & ? & ? & Hchain & _)%start_returned.
  apply identify_chain_rinkeby in Hchain.
  exists provider, b, t1. split_and!; try done; lia.
Qed.

Lemma start_returns_only_on_rinkeby_witness :
  ∃ provider b t1,
    web3 (fst (snd (start env_one_good 2 None (node_two, the_beginning))))
    = Some provider ∧
    (0 ≤ t1 ≤ 10100)%Z ∧ isConnected env_one_good provider t1 = true ∧
    getBlock env_one_good provider 10100 = Some b ∧
    block_hash b
    = "0x6341fd3daf94b748c72ced5a5b26028f2474f5f00d824504e4fa37a75767e177".
Proof.
  apply (start_returns_only_on_rinkeby env_one_good 2 None node_two the_beginning
           (fst (snd (start env_one_good 2 None (node_two, the_beginning))))
           (mkWorld 10100 2)).
  vm_compute. reflexivity.
Defined.

(** X3. The cannot-connect error is never early and never remote: when
    [start] raises it, more than the ten seconds of the deadline have
    passed, the supervisor is in spawn-local mode, the provider named is
    the one left in [web3], and the geth child that was spawned is still
    owned: [start] does not stop it. *)
Theorem cannot_connect_only_after_deadline env fuel port self w provider self' w' :
  start env fuel port (self, w)
  = (Raised (OSError_cannot_connect provider), (self', w')) →
  (now w + seconds CONNECTION_TIMEOUT < now w')%Z ∧
  start_node self' = true ∧ web3 self' = Some provider ∧
  (∃ path, provider = IPCProvider path) ∧ is_running self' = true.
Proof.
  intros Hstart.
  pose proof (cannot_connect_names_ipc _ _ _ _ _ _ Hstart) as Hipc.
  apply cannot_connect_is_late in Hstart as (? & ? & ? & ?).
  unfold seconds, CONNECTION_TIMEOUT. split_and!; try done; lia.
Qed.

Lemma cannot_connect_only_after_deadline_witness :
  (0 + seconds CONNECTION_TIMEOUT < 20200)%Z ∧
  is_running (fst (snd (start env_silent 2 None (node_bad, the_beginning)))) = true.
Proof.
  destruct (cannot_connect_only_after_deadline env_silent 2 None node_bad
              the_beginning (IPCProvider "/tmp/rinkeby-30303")
              (fst (snd (start env_silent 2 None (node_bad, the_beginning))))
              (mkWorld 20200 2))
    as (Hlate & _ & _ & _ & Hrun); [vm_compute; reflexivity|].
  split; [exact Hlate|exact Hrun].
Defined.

(** X4. How long [start] blocks: on the supervisor's clock, which only
    [time.sleep] advances, a call never moves time backwards and ends
    within 10.5 seconds per attempt, that is within 10.5 seconds times
    the number of candidates plus one. *)
Theorem start_blocks_at_most env fuel port self w r self' w' :
  start env fuel port (self, w) = (r, (self', w')) →
  (now w ≤ now w'
   ≤ now w + 10500 * (Z.of_nat (length (addr_list self)) + 1))%Z.
Proof.
  intros (_ & Hhooks & Hnow & used & Hused & Hmax & _)%start_accounting.
  rewrite Hused, length_app. nia.
Qed.

Lemma start_blocks_at_most_witness :
  (0 ≤ now (snd (snd (start env_silent 2 None (node_bad, the_beginning))))
   ≤ 0 + 10500 * (Z.of_nat 1 + 1))%Z.
Proof.
  apply (start_blocks_at_most env_silent 2 None node_bad the_beginning
           (fst (start env_silent 2 None (node_bad, the_beginning)))
           (fst (snd (start env_silent 2 None (node_bad, the_beginning))))
           (snd (snd (start env_silent 2 None (node_bad, the_beginning))))).
  vm_compute. reflexivity.
Defined.

(** X5. Exit hooks pile up: [start] registers one [atexit] hook per
    attempt and never removes one. A call leaves at most one hook more
    than the candidates it consumed, exactly as many as it consumed when
    it ends in connect-remote mode, and at least one when it returns. *)
Theorem start_registers_hooks env fuel port self w r self' w' :
  start env fuel port (self, w) = (r, (self', w')) →
  let consumed := (length (addr_list self) - length (addr_list self'))%nat in
  (atexit_hooks w ≤ atexit_hooks w' ≤ atexit_hooks w + consumed + 1)%nat ∧
  (start_node self' = false → atexit_hooks w' = (atexit_hooks w + consumed)%nat) ∧
  (r = Returned tt → (atexit_hooks w < atexit_hooks w')%nat).
Proof.
  intros Hstart consumed.
  pose proof Hstart as (_ & Hhooks & _ & used & Hused & Hmax & Hexact & _)%start_accounting.
  assert (consumed = length used) as ->
    by (unfold consumed; rewrite Hused, length_app; lia).
  split_and!; [done|done|done|].
  intros ->. by apply start_returned in Hstart as [? _].
Qed.

Lemma start_registers_hooks_witness :
  atexit_hooks (snd (snd (start env_one_good 2 None (node_two, the_beginning))))
  = (0 + (2 - 0))%nat.
Proof.
  apply (start_registers_hooks env_one_good 2 None node_two the_beginning
           (fst (start env_one_good 2 None (node_two, the_beginning)))
           (fst (snd (start env_one_good 2 None (node_two, the_beginning))))
           (snd (snd (start env_one_good 2 None (node_two, the_beginning)))));
    vm_compute; reflexivity.
Defined.

(** X6. Candidates are consumed from the end of the list and never put
    back: whatever the outcome, what is left of [addr_list] is a prefix
    of what was there, and [datadir] is untouched. When [start] returns
    in connect-remote mode, the endpoint in [web3] is the candidate that
    stood right after that prefix. *)
Theorem start_consumes_candidates_from_the_end env fuel port self w r self' w' :
  start env fuel port (self, w) = (r, (self', w')) →
  datadir self' = datadir self ∧
  (∃ used, addr_list self = addr_list self' ++ used) ∧
  (r = Returned tt → start_node self' = false →
   ∃ addr rest, web3 self' = Some (HTTPProvider addr) ∧
                addr_list self = addr_list self' ++ addr :: rest).
Proof.
  intros Hstart.
  pose proof Hstart as (Hdir & _ & _ & used & Hused & _)%start_accounting.
  split_and!; [done|by exists used|].
  intros -> Hremote.
  apply start_returned in Hstart as (_ & provider & _ & _ & Hweb3 & _ & _ & _ & _ & Hkind).
  destruct provider as [path|addr]; [destruct Hkind; congruence|].
  destruct Hkind as (_ & rest & Hlist). by exists addr, rest.
Qed.

Lemma start_consumes_candidates_from_the_end_witness :
  ∃ addr rest,
    web3 (fst (snd (start env_rinkeby 1 None (node_two, the_beginning))))
    = Some (HTTPProvider addr) ∧
    addr_list node_two
    = addr_list (fst (snd (start env_rinkeby 1 None (node_two, the_beginning))))
      ++ addr :: rest.
Proof.
  apply (start_consumes_candidates_from_the_end env_rinkeby 1 None node_two
           the_beginning (Returned tt)
           (fst (snd (start env_rinkeby 1 None (node_two, the_beginning))))
           (snd (snd (start env_rinkeby 1 None (node_two, the_beginning)))));
    vm_compute; reflexivity.
Defined.

(** X7. The mode moves one way, and only when the list is used up: a
    supervisor in spawn-local mode stays in it through any call of
    [start], and one that [start] moved from connect-remote to
    spawn-local has no remote candidate left. *)
Theorem fallback_only_when_exhausted env fuel port self w r self' w' :
  start env fuel port (self, w) = (r, (self', w')) →
  (start_node self = true → start_node self' = true) ∧
  (start_node self = false → start_node self' = true → addr_list self' = []).
Proof.
  intros Hstart. split.
  - intros Hlocal. destruct (start_node self') eqn:Hmode; [done|].
    apply (start_remote_keeps_ps _ _ _ _ _ _ Hstart) in Hmode as [Hwas _].
    cbn [fst] in Hwas. congruence.
  - by apply start_accounting in Hstart as (_ & _ & _ & used & _ & _ & _ & _ & Hfall).
Qed.

Lemma fallback_only_when_exhausted_witness :
  addr_list (fst (snd (start env_silent 2 None (node_bad, the_beginning)))) = [].
Proof.
  apply (fallback_only_when_exhausted env_silent 2 None node_bad the_beginning
           (fst (start env_silent 2 None (node_bad, the_beginning)))
           (fst (snd (start env_silent 2 None (node_bad, the_beginning))))
           (snd (snd (start env_silent 2 None (node_bad, the_beginning)))));
    vm_compute; reflexivity.
Defined.

(** ** Running out of candidates *)

(** X8. A supervisor built on one explicit address connects once: after
    a call of [start] that returned in connect-remote mode, a second
    call finds the candidate list empty and raises [IndexError] from
    [addr_list.pop()], leaving everything as it was. *)
Theorem single_address_connects_once
    env datadir addr public_nodes fuel port w st' fuel' port' :
  addr ≠ "" →
  start env fuel port (__init__ datadir (Some addr) false public_nodes, w)
  = (Returned tt, st') →
  start_node (fst st') = false →
  start env (S fuel') port' st' = (Raised IndexError_pop, st').
Proof.
  intros Haddr Hstart Hremote. destruct st' as [self' w'].
  pose proof (start_remote_keeps_ps _ _ _ _ _ _ Hstart Hremote) as [_ Hps].
  pose proof Hstart as (_ & provider & _ & _ & _ & _ & _ & _ & _ & Hkind)%start_returned.
  cbn [fst] in *. apply start_remote_empty; [|done|].
  - apply is_running_false. rewrite Hps. done.
  - destruct provider as [path|addr0]; [destruct Hkind; congruence|].
    destruct Hkind as (_ & rest & Hlist).
    unfold __init__ in Hlist. apply String.eqb_neq in Haddr. rewrite Haddr in Hlist.
    cbn [addr_list] in Hlist. by destruct (addr_list self') as [|? [|? ?]].
Qed.

Lemma single_address_connects_once_witness :
  let st' := snd (start env_rinkeby 1 None (node_bad, the_beginning)) in
  start env_rinkeby 1 None st' = (Raised IndexError_pop, st').
Proof.
  intros st'.
  apply (single_address_connects_once env_rinkeby "/home/golem" "http://bad:1"
           [] 1 None the_beginning st' 0 None); [done|reflexivity|reflexivity].
Defined.

(** ** The order in which candidates are tried *)

Lemma poll_attempt_at_once env provider started b :
  isConnected env provider started = true →
  getBlock env provider started = Some b →
  poll_attempt env provider started = GotGenesis b started.
Proof.
  intros Hlive Hblock. unfold poll_attempt, polls_until.
  by rewrite wait_connected_S, Hlive, wait_genesis_S, Hblock.
Qed.

Lemma dead_candidate_step env fuel port self w l addr :
  is_running self = false → start_node self = false →
  addr_list self = l ++ [addr] →
  (∀ t, isConnected env (HTTPProvider addr) t = false) →
  ∃ t, (now w + 10000 < t ≤ now w + 10500)%Z ∧
       start env (S fuel) port (self, w)
       = start env fuel port
           (mkNode (datadir self) (is_empty l) (Some (HTTPProvider addr)) l
              (__prog self) (__ps self),
            mkWorld t (S (atexit_hooks w))).
Proof.
  intros Hidle Hmode Hlist Hdead.
  destruct (never_connected_elapses env (HTTPProvider addr) (now w))
    as (t & _ & Hpoll); [done|].
  exists t. split; [by apply poll_attempt_elapsed in Hpoll|].
  rewrite start_S, Hidle. unfold create_provider. cbn [fst].
  rewrite Hmode, create_remote_spec, Hlist, pop_snoc. cbn zeta.
  rewrite Hpoll, timed_out_spec. cbn [start_node set_web3 set_addr_list].
  by rewrite Hmode.
Qed.

Lemma is_empty_middle {A} (l : list A) x l' : is_empty (l ++ x :: l') = false.
Proof. by destruct l. Qed.

(** X9. Candidates are tried from the last to the first, and dead ones
    are skipped: if the candidates after [good] never answer, while
    [good] answers and serves the rinkeby genesis, then [start] returns
    connected to [good], with the candidates before it still in the
    list, after no less than one full deadline per dead candidate, with
    one exit hook per dead candidate and one for the attempt on [good]. *)
Theorem start_skips_dead_candidates env port b good bad l (fuel : nat) self w :
  is_running self = false → start_node self = false →
  addr_list self = l ++ good :: bad →
  (∀ addr t, addr ∈ bad → isConnected env (HTTPProvider addr) t = false) →
  (∀ t, isConnected env (HTTPProvider good) t = true) →
  (∀ t, getBlock env (HTTPProvider good) t = Some b) →
  identify_chain b = CHAIN →
  (length bad < fuel)%nat →
  ∃ t, (now w + 10000 * Z.of_nat (length bad) ≤ t)%Z ∧
       start env fuel port (self, w)
       = (Returned tt,
          (mkNode (datadir self) false (Some (HTTPProvider good)) l
             (__prog self) (__ps self),
           mkWorld t (atexit_hooks w + S (length bad)))).
Proof.
  intros Hidle Hmode Hlist Hdead Hlive Hblock Hchain.
  revert fuel self w Hidle Hmode Hlist.
  induction bad as [|addr bad IH] using rev_ind; intros fuel self w Hidle Hmode Hlist Hfuel.
  - destruct fuel as [|fuel]; [cbn in Hfuel; lia|].
    exists (now w). split; [cbn [length]; lia|].
    rewrite start_S, Hidle. unfold create_provider. cbn [fst].
    rewrite Hmode, create_remote_spec, Hlist, pop_snoc. cbn zeta.
    rewrite (poll_attempt_at_once env _ _ b) by done.
    apply String.eqb_eq in Hchain. rewrite Hchain. cbn [negb length].
    unfold set_web3, set_addr_list, set_now, atexit_register.
    cbn [datadir start_node web3 addr_list __prog __ps now atexit_hooks].
    by rewrite Hmode, Nat.add_1_r.
  - rewrite length_app in Hfuel |- *. cbn [length] in Hfuel |- *.
    destruct fuel as [|fuel]; [lia|].
    destruct (dead_candidate_step env fuel port self w (l ++ good :: bad) addr)
      as (t1 & Ht1 & ->); [done|done|by rewrite Hlist, <- app_assoc| |].
    { intros t. apply Hdead, elem_of_app. right. by apply list_elem_of_singleton. }
    rewrite is_empty_middle.
    assert (∀ a t, a ∈ bad → isConnected env (HTTPProvider a) t = false) as Hdead'
      by (intros a t Ha; apply Hdead, elem_of_app; by left).
    destruct (IH Hdead' fuel
                (mkNode (datadir self) false (Some (HTTPProvider addr))
                   (l ++ good :: bad) (__prog self) (__ps self))
                (mkWorld t1 (S (atexit_hooks w))))
      as (t & Ht & Hrec); [done|done|done|lia|].
    rewrite Hrec.
    cbn [now atexit_hooks datadir __prog __ps] in *.
    exists t. split; [lia|]. do 3 f_equal. lia.
Qed.

Lemma start_skips_dead_candidates_witness :
  ∃ t, (0 + 10000 * Z.of_nat 1 ≤ t)%Z ∧
       start env_one_good 2 None (node_two, the_beginning)
       = (Returned tt,
          (mkNode "/home/golem" false (Some (HTTPProvider "http://good:2")) []
             None None,
           mkWorld t 2)).
Proof.
  apply (start_skips_dead_candidates env_one_good None rinkeby_genesis
           "http://good:2" ["http://bad:1"] [] 2 node_two the_beginning);
    try done; [|cbn; lia].
  intros addr t ->%list_elem_of_singleton. reflexivity.
Defined.

(** X10. When no candidate ever answers, [start] tries every one of
    them, last to first, and then makes exactly the call it would make
    in spawn-local mode: with an empty candidate list, [web3] on the
    first candidate of the list, a deadline and an exit hook spent on
    each candidate. *)
Theorem exhausted_candidates_fall_back env port (fuel : nat) self w :
  is_running self = false → start_node self = false →
  addr_list self ≠ [] →
  (∀ addr t, addr ∈ addr_list self → isConnected env (HTTPProvider addr) t = false) →
  ∃ t first,
    head (addr_list self) = Some first ∧
    (now w + 10000 * Z.of_nat (length (addr_list self)) < t
     ≤ now w + 10500 * Z.of_nat (length (addr_list self)))%Z ∧
    start env (length (addr_list self) + S fuel) port (self, w)
    = start env (S fuel) port
        (mkNode (datadir self) true (Some (HTTPProvider first)) []
           (__prog self) (__ps self),
         mkWorld t (atexit_hooks w + length (addr_list self))).
Proof.
  remember (addr_list self) as l eqn:Hlist. symmetry in Hlist.
  revert self w Hlist.
  induction l as [|addr l IH] using rev_ind; intros self w Hlist Hidle Hmode Hne Hdead;
    [done|].
  rewrite length_app. cbn [length].
  replace (length l + 1 + S fuel)%nat with (S (length l + S fuel)) by lia.
  destruct (dead_candidate_step env (length l + S fuel) port self w l addr)
    as (t1 & Ht1 & ->); [done|done|done| |].
  { intros t. apply Hdead, elem_of_app. right. by apply list_elem_of_singleton. }
  destruct l as [|first l].
  - exists t1, addr. cbn [app head length is_empty]. split_and!; [done|lia|lia|].
    cbn [Nat.add]. by rewrite Nat.add_1_r.
  - destruct (IH (mkNode (datadir self) false (Some (HTTPProvider addr))
                    (first :: l) (__prog self) (__ps self))
                 (mkWorld t1 (S (atexit_hooks w))))
      as (t & first' & Hhead & Ht & Hrec); [done|done|done|done| |].
    { intros a t Ha. apply Hdead, elem_of_app. by left. }
    cbn [head] in Hhead. injection Hhead as <-.
    cbn [now atexit_hooks datadir __prog __ps is_empty app head length] in *.
    rewrite Hrec.
    exists t, first. split_and!; [done|lia|lia|]. do 3 f_equal. lia.
Qed.

Lemma exhausted_candidates_fall_back_witness :
  ∃ t first,
    head (addr_list node_two) = Some first ∧
    (0 + 10000 * Z.of_nat 2 < t ≤ 0 + 10500 * Z.of_nat 2)%Z ∧
    start env_silent (2 + 1) None (node_two, the_beginning)
    = start env_silent 1 None
        (mkNode "/home/golem" true (Some (HTTPProvider first)) [] None None,
         mkWorld t (0 + 2)).
Proof.
  apply (exhausted_candidates_fall_back env_silent None 0 node_two the_beginning);
    done.
Defined.

(** ** Attempts that succeed, attempts in spawn-local mode *)

(** X11. An endpoint that is ready is taken at once: if from the
    beginning of the attempt on the provider answers the liveness check
    and serves the rinkeby genesis, [start] returns on this attempt
    without sleeping, having set [web3] and registered one exit hook,
    and without using a level of recursion. *)
Theorem start_connects_when_ready env fuel port self w provider self1 b :
  is_running self = false →
  create_provider env port (self, w) = (Returned provider, (self1, w)) →
  (∀ t, now w ≤ t → isConnected env provider t = true)%Z →
  (∀ t, now w ≤ t → getBlock env provider t = Some b)%Z →
  identify_chain b = CHAIN →
  start env (S fuel) port (self, w)
  = (Returned tt, (set_web3 (Some provider) self1, atexit_register w)) ∧
  start env 1 port (self, w) = start env (S fuel) port (self, w).
Proof.
  intros Hidle Hcreate Hlive Hserved Hchain.
  rewrite !start_S, Hidle, Hcreate. cbn zeta.
  rewrite (poll_attempt_at_once env provider (now w) b)
    by (by apply Hlive || by apply Hserved).
  apply String.eqb_eq in Hchain. rewrite Hchain. by destruct w.
Qed.

Lemma start_connects_when_ready_witness :
  start env_rinkeby 1 None (node_bad, the_beginning)
  = (Returned tt,
     (set_web3 (Some (HTTPProvider "http://bad:1")) (set_addr_list [] node_bad),
      atexit_register the_beginning)).
Proof.
  apply (start_connects_when_ready env_rinkeby 0 None node_bad the_beginning
           (HTTPProvider "http://bad:1") (set_addr_list [] node_bad)
           rinkeby_genesis); done.
Defined.

(** X12. In spawn-local mode [start] makes one attempt and no more: the
    outcome needs no level of recursion, the candidate list is left
    alone and at most one exit hook is registered. *)
Theorem local_start_is_one_attempt env fuel port self w r self' w' :
  start_node self = true →
  start env (S fuel) port (self, w) = (r, (self', w')) →
  start env 1 port (self, w) = (r, (self', w')) ∧
  r ≠ OutOfFuel ∧
  addr_list self' = addr_list self ∧
  (atexit_hooks w ≤ atexit_hooks w' ≤ atexit_hooks w + 1)%nat.
Proof.
  intros Hmode Hstart.
  pose proof Hstart as (_ & ? & ? & used & Hused & Hmax & _ & Hnone & _)%start_accounting.
  rewrite (Hnone Hmode) in Hused, Hmax. rewrite app_nil_r in Hused.
  cbn [length] in Hmax.
  split_and!; [| |done|lia|lia].
  - rewrite <- Hstart, !start_S. destruct (is_running self); [done|].
    destruct (create_provider env port (self, w)) as [[provider|e|] [self1 w1]] eqn:Hcreate;
      try done.
    apply create_provider_inv in Hcreate as (_ & Hmode1 & _).
    cbn zeta. destruct (poll_attempt env provider (now w1)); try done.
    rewrite !timed_out_spec. cbn [start_node set_web3]. by rewrite Hmode1, Hmode.
  - apply start_step in Hstart
      as [(_ & -> & _)|[(_ & e & self1 & _ & -> & _)|(_ & provider & self1 & _ & Hrest)]];
      [done|done|].
    cbn zeta in Hrest.
    destruct Hrest as [(b & t & _ & _ & ->)|[(t & _ & _ & -> & _)|(t & _ & ? & _)]];
      [by destruct (negb _)|done|congruence].
Qed.

Lemma local_start_is_one_attempt_witness :
  start env_silent 1 None (node_local, the_beginning)
  = start env_silent 4 None (node_local, the_beginning).
Proof.
  destruct (start env_silent 4 None (node_local, the_beginning))
    as [r [self' w']] eqn:Hstart.
  apply (local_start_is_one_attempt env_silent 3 None node_local the_beginning
           r self' w' eq_refl Hstart).
Defined.

(** ** [stop], and [start] after it *)

(** X13. [stop] touches the child-process handle and nothing else, and
    only when it returns: the world and every other attribute (the mode,
    [web3], the candidates, the geth path) are as before; when [stop]
    returns the handle is cleared and a second [stop] does nothing; when
    it raises the handle is still set. *)
Theorem stop_only_clears_child env self w r self' w' :
  stop env (self, w) = (r, (self', w')) →
  w' = w ∧ datadir self' = datadir self ∧ start_node self' = start_node self ∧
  web3 self' = web3 self ∧ addr_list self' = addr_list self ∧
  __prog self' = __prog self ∧
  (r = Returned tt →
     is_running self' = false ∧
     stop env (self', w') = (Returned tt, (self', w'))) ∧
  (r ≠ Returned tt → self' = self ∧ is_running self = true).
Proof.
  unfold stop. unfold_M. cbn [fst snd]. unfold is_running.
  destruct (__ps self) as [ps|] eqn:Hps.
  - destruct (terminate_wait env ps) as [e|]; cbn; intros [= <- <- <-];
      split_and!; done.
  - intros [= <- <- <-]. split_and!; try done. intros _. by rewrite !Hps.
Qed.

Lemma stop_only_clears_child_witness :
  let st := snd (start env_rinkeby 1 None (node_local, the_beginning)) in
  is_running (fst st) = true ∧
  is_running (fst (snd (stop env_rinkeby st))) = false ∧
  web3 (fst (snd (stop env_rinkeby st))) = web3 (fst st).
Proof.
  intros st.
  destruct (stop_only_clears_child env_rinkeby (fst st) (snd st) (Returned tt)
              (fst (snd (stop env_rinkeby st))) (snd (snd (stop env_rinkeby st))))
    as (_ & _ & _ & Hweb3 & _ & _ & Hcleared & _); [reflexivity|].
  split_and!; [reflexivity|by apply Hcleared|exact Hweb3].
Defined.

(** X14. After a [stop] that returned, [start] is never refused as
    already started, whatever happened before. *)
Theorem start_after_stop env st st' fuel port :
  stop env st = (Returned tt, st') →
  is_running (fst st') = false ∧
  fst (start env fuel port st') ≠ Raised RuntimeError_already_started.
Proof.
  intros Hstop.
  assert (is_running (fst st') = false) as Hidle.
  { revert Hstop. unfold stop. unfold_M. unfold is_running.
    destruct (__ps (fst st)) as [ps|] eqn:Hps.
    - by destruct (terminate_wait env ps); cbn; intros [= <-].
    - intros [= <-]. by rewrite Hps. }
  split; [done|]. by apply start_idle_not_already_started.
Qed.

Lemma start_after_stop_witness :
  let st := snd (start env_rinkeby 1 None (node_local, the_beginning)) in
  fst (start env_rinkeby 1 None st) = Raised RuntimeError_already_started ∧
  fst (start env_rinkeby 1 None (snd (stop env_rinkeby st)))
  ≠ Raised RuntimeError_already_started.
Proof.
  intros st. split; [reflexivity|].
  apply (start_after_stop env_rinkeby st (snd (stop env_rinkeby st)) 1 None).
  reflexivity.
Defined.

(** ** Names and hashes *)

(** X15. The names identify the chains: [identify_chain] answers one of
    four names, and each of mainnet, ropsten and rinkeby is answered for
    its own genesis hash only. *)
Theorem identify_chain_names (b : Block) :
  (identify_chain b = "mainnet" ↔ block_hash b
     = "0xd4e56740f876aef8c010b86a40d5f56745a118d0906a34e69aec8c0db1cb8fa3") ∧
  (identify_chain b = "ropsten" ↔ block_hash b
     = "0x41941023680923e0fe4d74a34bdac8141f2540e3ae90623718e47d66d1ca4a2d") ∧
  (identify_chain b = "rinkeby" ↔ block_hash b
     = "0x6341fd3daf94b748c72ced5a5b26028f2474f5f00d824504e4fa37a75767e177") ∧
  (identify_chain b = "mainnet" ∨ identify_chain b = "ropsten" ∨
   identify_chain b = "rinkeby" ∨ identify_chain b = "unknown").
Proof.
  unfold identify_chain, GENESES. rewrite !lookup_insert, lookup_empty.
  repeat case_decide; cbn [default]; split_and!;
    try (split; intros; simplify_eq; try done; congruence); tauto.
Qed.

Lemma identify_chain_names_witness :
  identify_chain rinkeby_genesis = "rinkeby".
Proof. apply (identify_chain_names rinkeby_genesis). reflexivity. Defined.

(** ** Reading the version that geth prints *)

Lemma codes_app s1 s2 : codes (s1 +:+ s2) = codes s1 ++ codes s2.
Proof.
  unfold codes. induction s1 as [|c s1 IH]; [done|].
  change (String c s1 +:+ s2) with (String c (s1 +:+ s2)).
  cbn [list_ascii_of_string fmap list_fmap app]. by f_equal.
Qed.

Lemma int_of_digits_snoc d c :
  int_of_digits (d ++ [c]) = (10 * int_of_digits d + digit_value c)%N.
Proof. unfold int_of_digits. by rewrite fold_left_app. Qed.

Lemma pretty_N_char_digit x :
  (x < 10)%N →
  ascii_digit (Ascii.N_of_ascii (pretty_N_char x)) = true ∧
  digit_value (Ascii.N_of_ascii (pretty_N_char x)) = x.
Proof.
  intros Hx. destruct x as [|p]; [done|].
  do 4 (try destruct p as [p|p|]); try done; lia.
Qed.

Lemma pretty_N_go_digits x s :
  ∃ d, codes (pretty_N_go x s) = d ++ codes s ∧
       Forall (λ c, ascii_digit c = true) d ∧ int_of_digits d = x ∧
       ((0 < x)%N → d ≠ []).
Proof.
  revert s. induction (N.lt_wf_0 x) as [x _ IH]; intros s.
  destruct (N.eq_0_gt_0_cases x) as [->|Hpos].
  { exists []. rewrite pretty_N_go_0. split_and!; [done|done|done|lia]. }
  rewrite pretty_N_go_step by done.
  destruct (IH (x `div` 10)%N) with (s := String (pretty_N_char (x `mod` 10)) s)
    as (d & -> & Hd & Hval & _); [by apply N.div_lt|].
  destruct (pretty_N_char_digit (x `mod` 10)) as [Hdigit Hvalue];
    [by apply N.mod_lt|].
  exists (d ++ [Ascii.N_of_ascii (pretty_N_char (x `mod` 10))]). split_and!.
  - by rewrite <- app_assoc.
  - apply Forall_app. split; [done|]. by constructor.
  - rewrite int_of_digits_snoc, Hval, Hvalue. symmetry. by apply N.div_mod.
  - intros _. by destruct d.
Qed.

Lemma pretty_N_digits (n : N) :
  ∃ d, codes (pretty n) = d ∧ d ≠ [] ∧
       Forall (λ c, ascii_digit c = true) d ∧ int_of_digits d = n.
Proof.
  unfold pretty, pretty_N. case_decide as Hn.
  { subst n. exists [48%N]. split_and!; try done. by constructor. }
  destruct (pretty_N_go_digits n "") as (d & -> & Hd & Hval & Hne).
  exists d. change (codes "") with (@nil N). rewrite app_nil_r.
  split_and!; [done|apply Hne; lia|done|done].
Qed.

Lemma span_digits_numeral is_digit d rest :
  Forall (λ c, is_digit c = true) d →
  ends_numeral is_digit rest →
  span_digits is_digit (d ++ rest) = (d, rest).
Proof.
  intros Hd Hrest. induction Hd as [|c d Hc _ IH].
  - destruct rest as [|c rest]; [done|]. cbn [app span_digits].
    cbn [ends_numeral] in Hrest. by rewrite Hrest.
  - cbn [app span_digits]. by rewrite Hc, IH.
Qed.

Lemma digits1_numeral is_digit d rest :
  d ≠ [] → Forall (λ c, is_digit c = true) d →
  ends_numeral is_digit rest →
  digits1 is_digit (d ++ rest) = Some (d, rest).
Proof.
  intros Hne Hd Hrest. unfold digits1. rewrite span_digits_numeral by done.
  by destruct d.
Qed.

Lemma re_search_other is_digit c s :
  c ≠ 86%N → Version.re_search is_digit (c :: s) = Version.re_search is_digit s.
Proof.
  intros Hc. unfold Version.re_search at 1; fold Version.re_search.
  change (codes "Version: ") with (86%N :: codes "ersion: ").
  cbn [strip_prefix]. by destruct (N.eqb_spec 86 c) as [|_]; [congruence|].
Qed.

Lemma re_search_skips is_digit pre s :
  86%N ∉ pre →
  Version.re_search is_digit (pre ++ s) = Version.re_search is_digit s.
Proof.
  induction pre as [|c pre IH]; [done|].
  intros [Hc Hpre]%not_elem_of_cons. cbn [app].
  rewrite re_search_other by done. by apply IH.
Qed.

Lemma re_search_here is_digit s rest m :
  strip_prefix (codes "Version: ") s = Some rest →
  Version.match_triple is_digit rest = Some m →
  Version.re_search is_digit s = Some m.
Proof.
  intros Hprefix Hmatch. destruct s as [|c s]; [done|].
  unfold Version.re_search; fold Version.re_search. by rewrite Hprefix, Hmatch.
Qed.

Lemma strip_prefix_app p s : strip_prefix p (p ++ s) = Some s.
Proof.
  induction p as [|c p IH]; [done|]. cbn [app strip_prefix].
  by rewrite N.eqb_refl.
Qed.

Lemma Forall_forallb (f : N → bool) d :
  Forall (λ c, f c = true) d → forallb f d = true.
Proof. induction 1 as [|c d Hc _ IH]; [done|]. cbn. by rewrite Hc, IH. Qed.

Lemma re_search_version is_digit pre (a b c : N) rest :
  (∀ ch, (ch < 128)%N → is_digit ch = ascii_digit ch) →
  86%N ∉ pre →
  ends_numeral is_digit rest →
  ∃ m, Version.re_search is_digit
         (pre ++ codes ("Version: " +:+ pretty a +:+ "." +:+ pretty b +:+ "."
                        +:+ pretty c) ++ rest) = Some m ∧
       Version.parse m = Some (mkVersion a b c).
Proof.
  intros Hascii Hpre Hrest. rewrite re_search_skips by done.
  rewrite !codes_app.
  destruct (pretty_N_digits a) as (da & -> & ? & Hda & <-).
  destruct (pretty_N_digits b) as (db & -> & ? & Hdb & <-).
  destruct (pretty_N_digits c) as (dc & -> & ? & Hdc & <-).
  assert (∀ d, Forall (λ ch, ascii_digit ch = true) d →
               Forall (λ ch, is_digit ch = true) d) as Hnd.
  { intros d Hd. eapply Forall_impl; [exact Hd|]. intros ch Hch.
    cbn beta in Hch. rewrite Hascii; [done|].
    unfold ascii_digit, in_range in Hch. apply andb_true_iff in Hch as [_ Hch].
    apply N.leb_le in Hch. lia. }
  assert (is_digit 46%N = false) as Hdot by (by rewrite Hascii).
  exists (da, db, dc). split.
  - eapply re_search_here.
    { rewrite <- !app_assoc. apply strip_prefix_app. }
    unfold Version.match_triple. change (codes ".") with [46%N].
    rewrite digits1_numeral by (try done; by apply Hnd). cbn [app].
    rewrite digits1_numeral by (try done; by apply Hnd). cbn [app].
    by rewrite digits1_numeral by (try done; by apply Hnd).
  - unfold Version.parse. by rewrite !Forall_forallb.
Qed.

Lemma decimal_digits_ascii ch :
  (ch < 128)%N → decimal_digits ch = ascii_digit ch.
Proof.
  intros Hch. unfold decimal_digits, ascii_digit, in_range.
  replace (1632 <=? ch)%N with false by (symmetry; apply N.leb_gt; lia).
  replace (2406 <=? ch)%N with false by (symmetry; apply N.leb_gt; lia).
  replace (65296 <=? ch)%N with false by (symmetry; apply N.leb_gt; lia).
  cbn [andb]. by rewrite !orb_false_r.
Qed.

(** X16. What [_find_geth] makes of the text geth prints. When the
    output decodes as UTF-8 to a text with no capital V before a token
    [Version: a.b.c], with the three numbers in the digits 0 to 9 and no
    decimal digit of any script right after, the pattern extracts
    exactly [a], [b] and [c], whatever comes before and after, and
    [_find_geth] records the binary if 1.7.2 <= a.b.c <= 1.7.999 and
    raises the incompatible-version error on a.b.c otherwise. (The
    Unicode database is only assumed to know no decimal digit in ASCII
    other than 0 to 9.) *)
Theorem find_geth_reads_version env geth pre (a b c : N) rest self w :
  find_program env "geth" = Some geth →
  (∀ ch, (ch < 128)%N → unicode_digit env ch = ascii_digit ch) →
  utf8_decode (bytes_of (version_output env geth))
  = Some (pre ++ codes ("Version: " +:+ pretty a +:+ "." +:+ pretty b +:+ "."
                        +:+ pretty c) ++ rest) →
  86%N ∉ pre →
  ends_numeral (unicode_digit env) rest →
  _find_geth env (self, w)
  = if decide (a = 1 ∧ b = 7 ∧ 2 ≤ c ≤ 999)%N
    then (Returned tt, (set_prog (Some geth) self, w))
    else (Raised (OSError_incompatible_version (mkVersion a b c)), (self, w)).
Proof.
  intros Hgeth Hascii Htext Hpre Hrest.
  destruct (re_search_version (unicode_digit env) pre a b c rest Hascii Hpre Hrest)
    as (m & Hsearch & Hparse).
  rewrite find_geth_spec, Hgeth, Htext, Hsearch, Hparse.
  pose proof (version_rejected_false (mkVersion a b c)) as Hgate.
  cbn [major minor patch] in Hgate.
  destruct (version_rejected (mkVersion a b c)); case_decide as Hrange; try done.
  - by apply Hgate in Hrange.
  - destruct Hrange. by apply Hgate.
Qed.

Lemma find_geth_reads_version_witness :
  _find_geth env_silent (node_local, the_beginning)
  = (Returned tt, (set_prog (Some "/usr/bin/geth") node_local, the_beginning)).
Proof.
  apply (find_geth_reads_version env_silent "/usr/bin/geth" (codes ("Geth" +:+ LF))
           1 7 3 (codes ("-stable" +:+ LF +:+ "Architecture: amd64" +:+ LF))
           node_local the_beginning);
    [reflexivity|apply decimal_digits_ascii|reflexivity| |reflexivity].
  intros Hin. vm_compute in Hin.
  by repeat (apply elem_of_cons in Hin as [?|Hin]); try apply elem_of_nil in Hin.
Defined.

(** X17. When the output of [geth version] decodes as UTF-8 to a text
    with no capital V at all (an empty output, an error message), the
    pattern finds nothing and [_find_geth] fails with the
    [AttributeError] of calling [group] on [None], not with an
    [OSError]; the supervisor is left as it was. *)
Theorem find_geth_without_version_line env geth text self w :
  find_program env "geth" = Some geth →
  utf8_decode (bytes_of (version_output env geth)) = Some text →
  86%N ∉ text →
  _find_geth env (self, w) = (Raised AttributeError_group, (self, w)).
Proof.
  intros Hgeth Htext Hno. rewrite find_geth_spec, Hgeth, Htext.
  rewrite <- (app_nil_r text), re_search_skips by done.
  done.
Qed.

Lemma find_geth_without_version_line_witness :
  _find_geth env_broken_geth (node_local, the_beginning)
  = (Raised AttributeError_group, (node_local, the_beginning)).
Proof.
  apply (find_geth_without_version_line env_broken_geth "/usr/bin/geth"
           (codes "geth: error while loading shared libraries"));
    [reflexivity|reflexivity|].
  intros Hin. vm_compute in Hin.
  by repeat (apply elem_of_cons in Hin as [?|Hin]); try apply elem_of_nil in Hin.
Defined.

(** ** The child that is spawned *)

(** X18. The provider and the child agree: when
    [_create_local_ipc_provider] returns, the IPC path of the provider
    is the one geth was started with as [--ipcpath], the binary started
    is the one [find_program] found and [__prog] records, the port given
    to geth is the requested one (or the free port found when none was
    requested), the network flag is [--rinkeby], and the child-process
    handle holds exactly the command that was run. *)
Theorem spawned_child_matches_provider env chain port self w provider self' w' :
  _create_local_ipc_provider env chain port (self, w)
  = (Returned provider, (self', w')) →
  ∃ geth path child argv,
    provider = IPCProvider path ∧
    find_program env "geth" = Some geth ∧ __prog self' = Some geth ∧
    __ps self' = Some (mkPopen child argv) ∧ spawn env argv = Some child ∧
    head argv = Some geth ∧
    "--ipcpath=" +:+ path ∈ argv ∧
    "--port=" +:+ pretty (default (find_free_net_port env) port) ∈ argv ∧
    "--rinkeby" ∈ argv ∧
    w' = w ∧ web3 self' = web3 self ∧ addr_list self' = addr_list self.
Proof.
  unfold _create_local_ipc_provider.
  unfold mbind at 1. unfold M_bind at 1.
  destruct (find_geth_outcome env self w) as [(geth & Hgeth & ->)|(e & _ & ->)];
    [|done].
  unfold_M. cbn [fst snd __prog set_prog default].
  destruct (spawn env _) as [child|] eqn:Hspawn; [|done].
  intros [= <- <- <-].
  eexists geth, _, child, _. split_and!; try done.
  - do 6 apply list_elem_of_further. apply list_elem_of_here.
  - do 5 apply list_elem_of_further. destruct port; apply list_elem_of_here.
  - do 4 apply list_elem_of_further. apply list_elem_of_here.
Qed.

Lemma spawned_child_matches_provider_witness :
  let created :=
    _create_local_ipc_provider env_silent CHAIN None (node_local, the_beginning) in
  ∃ path child argv,
    fst created = Returned (IPCProvider path) ∧
    __ps (fst (snd created)) = Some (mkPopen child argv) ∧
    "--ipcpath=" +:+ path ∈ argv.
Proof.
  intros created.
  destruct (spawned_child_matches_provider env_silent CHAIN None node_local
              the_beginning (IPCProvider "/tmp/rinkeby-30303")
              (fst (snd created)) (snd (snd created)) eq_refl)
    as (geth & path & child & argv & Hpath & _ & _ & Hps & _ & _ & Hin & _).
  exists path, child, argv. split_and!; [|exact Hps|exact Hin].
  rewrite <- Hpath. reflexivity.
Defined.

Lemma posix_ipc_path_witness :
  IPCProvider "/tmp/rinkeby-30305"
  = IPCProvider (gettempdir env_silent +:+ "/" +:+ CHAIN +:+ "-" +:+ pretty 30305%Z).
Proof.
  apply (posix_ipc_path env_silent 30305 node_local the_beginning
           (IPCProvider "/tmp/rinkeby-30305")
           (snd (_create_local_ipc_provider env_silent CHAIN (Some 30305%Z)
                   (node_local, the_beginning))));
    [reflexivity|reflexivity|done|done].
Defined.
